(** * Movilidad CR: a shallow embedding of [proyecto/app.py]

    The dashboard script is modelled top to bottom: the table and its
    derived column, the OSRM route fetcher, the selection filter, the
    indicators, the overview map and the animation loop.

    Conventions.
    - Python and pandas numbers (float64, int64, JSON numbers) are
      modelled by exact rationals [Q]; rounding and the non-finite
      values (inf, NaN) are outside the model.
    - A Python [str] is a [string]; its characters are [ascii].
    - A pandas DataFrame is the list of its rows in positional order,
      each row carrying its index label.
    - An expression that may raise evaluates in [py]; the script, which
      also renders and may be halted by [st.stop()], runs in [Script].
    - The calls into Streamlit, pydeck and folium are recorded with
      their arguments, not executed: they are taken to return. *)

From Stdlib Require Import List String Ascii Bool Arith ZArith QArith Qround Lqa Lia Sorted.
Import ListNotations.

Set Warnings "-register-all".

Local Open Scope string_scope.
Local Open Scope list_scope.

(** ** Python values and exceptions *)

Inductive excepcion : Type :=
| KeyError
| IndexError
| TypeError
| ValueError
| JSONDecodeError
| RequestException.

(** Result of evaluating a Python expression. *)
Inductive py (A : Type) : Type :=
| Valor (a : A)
| Lanza (e : excepcion).

Arguments Valor {A} a.
Arguments Lanza {A} e.

Definition py_bind {A B} (m : py A) (f : A -> py B) : py B :=
  match m with
  | Valor a => f a
  | Lanza e => Lanza e
  end.

Notation "x <- m ;; k" := (py_bind m (fun x => k))
  (at level 61, m at next level, right associativity).

Fixpoint py_map {A B} (f : A -> py B) (l : list A) : py (list B) :=
  match l with
  | [] => Valor []
  | x :: xs => y <- f x ;; ys <- py_map f xs ;; Valor (y :: ys)
  end.

(** What [json.loads] builds: None, bool, int/float, str, list, dict.
    A dict is kept as the sequence of its insertions. *)
Inductive json : Type :=
| JNull
| JBool (b : bool)
| JNum (q : Q)
| JStr (s : string)
| JArr (l : list json)
| JObj (l : list (string * json)).

(** Values in order of first appearance (pandas [unique], dict keys). *)
Fixpoint unique (l : list string) : list string :=
  match l with
  | [] => []
  | x :: xs => x :: filter (fun y => negb (y =? x)) (unique xs)
  end.

(** The value bound to [k]: a later insertion replaces an earlier one. *)
Fixpoint dict_get (k : string) (l : list (string * json)) : option json :=
  match l with
  | [] => None
  | (k', v) :: rest =>
      match dict_get k rest with
      | Some w => Some w
      | None => if k' =? k then Some v else None
      end
  end.

Definition dict_keys (l : list (string * json)) : list string :=
  unique (map fst l).

Fixpoint caracteres (s : string) : list string :=
  match s with
  | EmptyString => []
  | String c rest => String c EmptyString :: caracteres rest
  end.

(** [v[k]] with a string key. *)
Definition getitem_str (v : json) (k : string) : py json :=
  match v with
  | JObj l =>
      match dict_get k l with
      | Some w => Valor w
      | None => Lanza KeyError
      end
  | _ => Lanza TypeError
  end.

(** [v[n]] with a non-negative integer index. *)
Definition getitem_int (v : json) (n : nat) : py json :=
  match v with
  | JArr l =>
      match nth_error l n with
      | Some w => Valor w
      | None => Lanza IndexError
      end
  | JStr s =>
      match String.get n s with
      | Some c => Valor (JStr (String c EmptyString))
      | None => Lanza IndexError
      end
  | JObj _ => Lanza KeyError
  | _ => Lanza TypeError
  end.

(** [v / d] for a numeric literal [d]; a bool is an int. *)
Definition truediv (v : json) (d : Q) : py Q :=
  match v with
  | JNum q => Valor (q / d)%Q
  | JBool b => Valor ((if b then 1 else 0) / d)%Q
  | _ => Lanza TypeError
  end.

(** [for c in v]. *)
Definition iter (v : json) : py (list json) :=
  match v with
  | JArr l => Valor l
  | JStr s => Valor (map JStr (caracteres s))
  | JObj l => Valor (map JStr (dict_keys l))
  | _ => Lanza TypeError
  end.

(** ** The OSRM route fetcher *)

(** The GET request: the endpoint, the two (lon, lat) pairs in the
    order of the URL, and the query string. *)
Record Solicitud : Type := {
  endpoint : string;
  desde : Q * Q;
  hasta : Q * Q;
  consulta : string
}.

(** [r.status_code] and [r.json()], which raises on an unparsable body. *)
Record Respuesta : Type := {
  status_code : Z;
  r_json : py json
}.

(** A row of the route DataFrame (columns lat, lon). *)
Record Punto : Type := {
  lat : json;
  lon : json
}.

Definition url (lat1 lon1 lat2 lon2 : Q) : Solicitud :=
  {| endpoint := "https://router.project-osrm.org/route/v1/driving/";
     desde := (lon1, lat1);
     hasta := (lon2, lat2);
     consulta := "overview=full&geometries=geojson" |}.

(** The body of the [try] block: coordinates, then duration in minutes. *)
Definition extraer (r : Respuesta) : py (json * Q) :=
  data <- r_json r ;;
  rutas <- getitem_str data "routes" ;;
  primera <- getitem_int rutas 0 ;;
  geometria <- getitem_str primera "geometry" ;;
  coords <- getitem_str geometria "coordinates" ;;
  rutas' <- getitem_str data "routes" ;;
  primera' <- getitem_int rutas' 0 ;;
  segundos <- getitem_str primera' "duration" ;;
  duracion <- truediv segundos 60 ;;
  Valor (coords, duracion).

(** [{"lat": c[1], "lon": c[0]}]. *)
Definition punto_de (c : json) : py Punto :=
  la <- getitem_int c 1 ;;
  lo <- getitem_int c 0 ;;
  Valor {| lat := la; lon := lo |}.

(** The function once [requests.get] has answered: [requests_get] gives
    the answer to each request. The call itself raising (line 53) is
    in [obtener_ruta_osrm_red] below. *)
Definition obtener_ruta_osrm (requests_get : Solicitud -> Respuesta)
    (lat1 lon1 lat2 lon2 : Q) : py (list Punto * option Q) :=
  let r := requests_get (url lat1 lon1 lat2 lon2) in
  if negb (status_code r =? 200)%Z then Valor ([], None)
  else
    match extraer r with
    | Lanza _ => Valor ([], None)
    | Valor (coords, duracion) =>
        ruta <- (cs <- iter coords ;; py_map punto_de cs) ;;
        Valor (ruta, Some duracion)
    end.

(** *** The response shape of section 6, as the spec words it *)

Definition campo (k : string) (v : json) : option json :=
  match v with
  | JObj l => dict_get k l
  | _ => None
  end.

Definition elemento (n : nat) (v : json) : option json :=
  match v with
  | JArr l => nth_error l n
  | _ => None
  end.

Definition punto_geojson (p : Q * Q) : json :=
  JArr [JNum (fst p); JNum (snd p)].

(** [data] has a first route whose geometry lists the [lon, lat] pairs
    [pts] and whose duration is [segundos]; other keys and further
    routes may be present. *)
Definition forma_esperada (data : json) (pts : list (Q * Q)) (segundos : Q) : Prop :=
  exists rutas primera geometria,
    campo "routes" data = Some rutas /\
    elemento 0 rutas = Some primera /\
    campo "geometry" primera = Some geometria /\
    campo "coordinates" geometria = Some (JArr (map punto_geojson pts)) /\
    campo "duration" primera = Some (JNum segundos).

(** One of the fields read by the fetcher is absent. *)
Inductive falta_campo (data : json) : Prop :=
| falta_routes :
    campo "routes" data = None -> falta_campo data
| falta_primera rutas :
    campo "routes" data = Some rutas ->
    elemento 0 rutas = None -> falta_campo data
| falta_geometry rutas primera :
    campo "routes" data = Some rutas ->
    elemento 0 rutas = Some primera ->
    campo "geometry" primera = None -> falta_campo data
| falta_coordinates rutas primera geometria :
    campo "routes" data = Some rutas ->
    elemento 0 rutas = Some primera ->
    campo "geometry" primera = Some geometria ->
    campo "coordinates" geometria = None -> falta_campo data
| falta_duration rutas primera :
    campo "routes" data = Some rutas ->
    elemento 0 rutas = Some primera ->
    campo "duration" primera = None -> falta_campo data.

Definition a_punto (p : Q * Q) : Punto :=
  {| lat := JNum (snd p); lon := JNum (fst p) |}.

(** The response of the spec's example. *)
Definition respuesta_ejemplo : Respuesta :=
  {| status_code := 200;
     r_json := Valor (JObj [("routes", JArr [JObj
       [("geometry", JObj [("coordinates",
           JArr [JArr [JNum 10; JNum 20]; JArr [JNum 11; JNum 21]])]);
        ("duration", JNum 600)]])]) |}.

(** ** The route table *)

(** A row of [datos/rutas_cr.xlsx]. *)
Record Registro : Type := {
  inicio : string;
  fin : string;
  ruta : string;
  lat_inicio : Q;
  lon_inicio : Q;
  lat_fin : Q;
  lon_fin : Q;
  distancia_km : Q;
  pasajeros_prom : Q;
  frecuencia_hora : Q
}.

(** A pandas Series: index label and value, in positional order. *)
Definition Serie (A : Type) : Type := list (nat * A).

(** A row of [df] once the derived column is in place. *)
Record Fila : Type := {
  etiqueta : nat;
  datos : Registro;
  eficiencia : Q
}.

Definition DataFrame : Type := list Fila.

(** [load_data()]: the rows of the file under a RangeIndex. *)
Definition load_data (archivo : list Registro) : Serie Registro :=
  combine (seq 0 (List.length archivo)) archivo.

(** [tabla[col]] before the derived column exists. *)
Definition columna0 {A} (col : Registro -> A) (tabla : Serie Registro) : Serie A :=
  map (fun f => (fst f, col (snd f))) tabla.

(** [a / b] on two Series over the same index: element by element.
    A zero divisor, where pandas gives inf or NaN, is outside the
    model: what is proved of the efficiencies of [df] is proved of
    rows whose distance is not zero. *)
Definition serie_div (a b : Serie Q) : Serie Q :=
  map (fun xy => (fst (fst xy), (snd (fst xy) / snd (snd xy))%Q)) (combine a b).

(** [tabla["eficiencia"] = s], [s] being over the index of [tabla]. *)
Definition asignar_eficiencia (tabla : Serie Registro) (s : Serie Q) : DataFrame :=
  map (fun fe => {| etiqueta := fst (fst fe);
                    datos := snd (fst fe);
                    eficiencia := snd (snd fe) |}) (combine tabla s).

(** Lines 30 to 33: the global [df]. *)
Definition df (archivo : list Registro) : DataFrame :=
  let tabla := load_data archivo in
  asignar_eficiencia tabla
    (serie_div (columna0 pasajeros_prom tabla) (columna0 distancia_km tabla)).

(** [d[col]] as plain values. *)
Definition columna {A} (col : Fila -> A) (d : DataFrame) : list A := map col d.

(** ** Selection *)

(** [d[col] == v]; the selected value is None when a selectbox has no
    option, and no label equals None. *)
Definition col_eq (col : Registro -> string) (v : option string) (d : DataFrame) : list bool :=
  map (fun f => match v with
                | Some s => col (datos f) =? s
                | None => false
                end) d.

(** [m1 & m2]. *)
Definition mask_and (m1 m2 : list bool) : list bool :=
  map (fun ab => fst ab && snd ab) (combine m1 m2).

(** [d[mask]]: the rows whose mask entry is True. *)
Definition seleccionar (d : DataFrame) (mask : list bool) : DataFrame :=
  map fst (filter snd (combine d mask)).

(** Line 102. *)
Definition rutas_od (d : DataFrame) (origen destino : option string) : DataFrame :=
  seleccionar d (mask_and (col_eq inicio origen d) (col_eq fin destino d)).

(** [d.iloc[0]]. *)
Definition iloc0 (d : DataFrame) : py Fila :=
  match d with
  | f :: _ => Valor f
  | [] => Lanza IndexError
  end.

(** [d.empty]. *)
Definition empty {A} (d : list A) : bool :=
  match d with
  | [] => true
  | _ => false
  end.

(** [sorted] on strings. *)
Fixpoint insertar (x : string) (l : list string) : list string :=
  match l with
  | [] => [x]
  | y :: ys => if String.leb x y then x :: l else y :: insertar x ys
  end.

Definition sorted (l : list string) : list string :=
  fold_right insertar [] l.

(** ** Indicators *)

(** The first entry of a Series that no other entry beats, [mejor x y]
    telling that [x] is at least as good as [y]. *)
Fixpoint primer_extremo (mejor : Q -> Q -> bool) (s : Serie Q) : option (nat * Q) :=
  match s with
  | [] => None
  | (i, x) :: resto =>
      match primer_extremo mejor resto with
      | Some (j, y) => if mejor x y then Some (i, x) else Some (j, y)
      | None => Some (i, x)
      end
  end.

Definition menor_o_igual (x y : Q) : bool := Qle_bool x y.
Definition mayor_o_igual (x y : Q) : bool := Qle_bool y x.

Definition serie (col : Fila -> Q) (d : DataFrame) : Serie Q :=
  map (fun f => (etiqueta f, col f)) d.

(** [s.idxmin()] and [s.idxmax()]: the label of the first extremum. *)
Definition idxmin (s : Serie Q) : py nat :=
  match primer_extremo menor_o_igual s with
  | Some (i, _) => Valor i
  | None => Lanza ValueError
  end.

Definition idxmax (s : Serie Q) : py nat :=
  match primer_extremo mayor_o_igual s with
  | Some (i, _) => Valor i
  | None => Lanza ValueError
  end.

(** [d.loc[i]] on a frame whose labels are distinct. *)
Definition loc (d : DataFrame) (i : nat) : py Fila :=
  match find (fun f => etiqueta f =? i)%nat d with
  | Some f => Valor f
  | None => Lanza KeyError
  end.

Definition distancia (f : Fila) : Q := distancia_km (datos f).
Definition frecuencia (f : Fila) : Q := frecuencia_hora (datos f).

(** Lines 141, 144 and 147. *)
Definition ruta_corta (od : DataFrame) : py Fila :=
  i <- idxmin (serie distancia od) ;; loc od i.

Definition ruta_freq (od : DataFrame) : py Fila :=
  i <- idxmax (serie frecuencia od) ;; loc od i.

Definition ruta_eff (od : DataFrame) : py Fila :=
  i <- idxmax (serie eficiencia od) ;; loc od i.

(** [d.groupby("ruta")["pasajeros_prom"].sum()], keys in sorted order. *)
Fixpoint acumular (k : string) (x : Q) (l : list (string * Q)) : list (string * Q) :=
  match l with
  | [] => [(k, x)]
  | (k', y) :: resto =>
      if k' =? k then (k', (y + x)%Q) :: resto
      else if String.leb k k' then (k, x) :: l
      else (k', y) :: acumular k x resto
  end.

Definition demanda_por_ruta (d : DataFrame) : list (string * Q) :=
  fold_left (fun acc f => acumular (ruta (datos f)) (pasajeros_prom (datos f)) acc) d [].

(** ** Efficiency colours of the overview map *)

Fixpoint insertar_q (x : Q) (l : list Q) : list Q :=
  match l with
  | [] => [x]
  | y :: ys => if Qle_bool x y then x :: l else y :: insertar_q x ys
  end.

Definition ordenar (l : list Q) : list Q :=
  fold_right insertar_q [] l.

(** Linear interpolation at the position [q * (n - 1)] of the sorted
    values [a] of length [n]: the position falls between two
    neighbours, and the result lies between them in that proportion.
    [a0] is only the value read outside [a], which no position is. *)
Definition interpolar (a : list Q) (a0 : Q) (q : Q) : Q :=
  let n := List.length a in
  let pos := (q * inject_Z (Z.of_nat n - 1))%Q in
  let lo := Z.to_nat (Qfloor pos) in
  let hi := Nat.min (lo + 1) (n - 1) in
  let g := (pos - inject_Z (Qfloor pos))%Q in
  (nth lo a a0 + (nth hi a a0 - nth lo a a0) * g)%Q.

(** [s.quantile(q)] with pandas' default linear interpolation; no
    value (NaN) on an empty column. *)
Definition quantile (valores : list Q) (q : Q) : option Q :=
  let a := ordenar valores in
  match a with
  | [] => None
  | a0 :: _ => Some (interpolar a a0 q)
  end.

(** [value > c], which is False against a missing quantile. *)
Definition mayor (value : Q) (c : option Q) : bool :=
  match c with
  | Some x => negb (Qle_bool value x)
  | None => false
  end.

Definition eficiencia_color (d : DataFrame) (value : Q) : string :=
  if mayor value (quantile (columna eficiencia d) 0.66) then "green"
  else if mayor value (quantile (columna eficiencia d) 0.33) then "orange"
  else "red".

(** A row of [gdf_rutas]: the row of [df] and its LineString. *)
Record FilaGeo : Type := {
  fila_de : Fila;
  geometry : list (Q * Q)
}.

Definition construir_gdf_rutas (d : DataFrame) : list FilaGeo :=
  map (fun f => {| fila_de := f;
                   geometry := [(lon_inicio (datos f), lat_inicio (datos f));
                                (lon_fin (datos f), lat_fin (datos f))] |}) d.

Record PolyLine : Type := {
  locations : list (Q * Q);
  color : string;
  weight : Z;
  tooltip : string
}.

Record Mapa : Type := {
  location : Q * Q;
  zoom_start : Z;
  width : Z;
  height : Z;
  control_scale : bool;
  lineas : list PolyLine
}.

Definition linea (d : DataFrame) (row : FilaGeo) : PolyLine :=
  let f := fila_de row in
  {| locations := [(lat_inicio (datos f), lon_inicio (datos f));
                   (lat_fin (datos f), lon_fin (datos f))];
     color := eficiencia_color d (eficiencia f);
     weight := 4;
     tooltip := ruta (datos f) |}.

Definition minimapa (d : DataFrame) : Mapa :=
  {| location := (9.93, -84.08)%Q;
     zoom_start := 7;
     width := 310;
     height := 380;
     control_scale := true;
     lineas := map (linea d) (construir_gdf_rutas d) |}.

(** ** What the page shows *)

(** An index label: an integer of a RangeIndex or a string key. *)
Inductive Rotulo : Type :=
| RInt (n : nat)
| RStr (s : string).

Definition rotulo_eqb (a b : Rotulo) : bool :=
  match a, b with
  | RInt m, RInt n => (m =? n)%nat
  | RStr x, RStr y => x =? y
  | _, _ => false
  end.

(** [pd.Series(d)] for a dict [d]: the keys are the index. *)
Definition serie_de_dict (d : list (string * json)) : list (Rotulo * json) :=
  map (fun kv => (RStr (fst kv), snd kv)) d.

(** [s.reindex(idx)]: under each label of [idx] the value [s] holds for
    it, NaN (here [None]) where [s] has no such label. *)
Definition reindex (s : list (Rotulo * json)) (idx : list Rotulo) : list (option json) :=
  map (fun l => option_map snd (find (fun kv => rotulo_eqb (fst kv) l) s)) idx.

Definition icon_bus : list (string * json) :=
  [ ("url", JStr "https://cdn-icons-png.flaticon.com/512/61/61088.png");
    ("width", JNum 512);
    ("height", JNum 512);
    ("anchorY", JNum 512) ].

(** [d.assign(icon=valor)] for a dict [valor]: pandas turns the dict
    into a Series and aligns it on the row labels of [d]. The rows come
    with their labels. *)
Definition assign_icon (d : list (nat * Punto)) (valor : list (string * json))
    : list (Punto * option json) :=
  combine (map snd d)
    (reindex (serie_de_dict valor) (map (fun ip => RInt (fst ip)) d)).

Inductive Layer : Type :=
| IconLayer (data : list (Punto * option json)) (get_icon : string)
            (get_size size_scale : Z) (get_position : string)
| PathLayer (data : list (list (json * json))) (get_color : list Z)
            (width_scale width_min_pixels : Z).

Record ViewState : Type := {
  latitude : json;
  longitude : json;
  zoom : Z;
  pitch : Z
}.

Record Deck : Type := {
  layers : list Layer;
  initial_view_state : ViewState
}.

(** An f-string around one number, unformatted or with [:.1f]. *)
Inductive texto : Type :=
| Texto (s : string)
| Tal_cual (q : Q) (sufijo : string)
| Un_decimal (q : Q) (sufijo : string).

(** The Streamlit calls of the script, in the order they are made;
    the column a call is made in is not recorded. *)
Inductive evento : Type :=
| set_page_config (page_title page_icon layout : string)
| title (s : string)
| markdown (s : string)
| sidebar_header (s : string)
| sidebar_selectbox (label : string) (opciones : list string) (valor : option string)
| error (s : string)
| header (s : string)
| columns (spec : list Z)
| metric (label : string) (value : texto) (delta : option texto)
| dataframe (d : DataFrame)
| bar_chart (s : list (string * Q))
| empty_placeholder
| caption (s : string)
| folium_static (m : Mapa)
| pydeck_chart (d : Deck)
| sleep (segundos : Q).

(** How a run of the script ends: it goes on with a value, it was
    halted by [st.stop()], or an exception reached the top level. *)
Inductive salida (A : Type) : Type :=
| Sigue (a : A)
| Detenido
| Excepcion (e : excepcion).

Arguments Sigue {A} a.
Arguments Detenido {A}.
Arguments Excepcion {A} e.

Definition Script (A : Type) : Type := (list evento * salida A)%type.

Definition ret {A} (a : A) : Script A := ([], Sigue a).

Definition bind {A B} (m : Script A) (f : A -> Script B) : Script B :=
  match m with
  | (t, Sigue a) => let (t', r) := f a in (t ++ t', r)
  | (t, Detenido) => (t, Detenido)
  | (t, Excepcion e) => (t, Excepcion e)
  end.

Notation "x <~ m ;; k" := (bind m (fun x => k))
  (at level 61, m at next level, right associativity).
Notation "m ;;; k" := (bind m (fun _ => k))
  (at level 61, right associativity).

Definition st (e : evento) : Script unit := ([e], Sigue tt).

Definition st_stop {A} : Script A := ([], Detenido).

Definition evaluar {A} (m : py A) : Script A :=
  match m with
  | Valor a => ret a
  | Lanza e => ([], Excepcion e)
  end.

(** [for x in l: cuerpo]. *)
Fixpoint para {A} (l : list A) (cuerpo : A -> Script unit) : Script unit :=
  match l with
  | [] => ret tt
  | x :: xs => cuerpo x ;;; para xs cuerpo
  end.

(** ** The script *)

(** What the user has picked in the three selectboxes, as positions in
    their option lists. *)
Record Usuario : Type := {
  elige_origen : nat;
  elige_destino : nat;
  elige_ruta : nat
}.

(** The value of a selectbox: the option picked, the first option when
    the pick is not on the list, None when there is no option. *)
Definition selectbox (opciones : list string) (i : nat) : option string :=
  match nth_error opciones i with
  | Some x => Some x
  | None => hd_error opciones
  end.

Definition st_sidebar_selectbox (label : string) (opciones : list string) (i : nat)
    : Script (option string) :=
  let v := selectbox opciones i in
  st (sidebar_selectbox label opciones v) ;;; ret v.

(** [str(v)]. *)
Definition str (v : option string) : string :=
  match v with
  | Some s => s
  | None => "None"
  end.

(** Lines 105 to 107. *)
Definition exigir_rutas (od : DataFrame) : Script unit :=
  if empty od then
    st (error "No existen rutas entre este origen y destino.") ;;; st_stop
  else ret tt.

(** Lines 110 to 117. *)
Definition fila (od : DataFrame) (u : Usuario) : Script Fila :=
  if (1 <? List.length od)%nat then
    ruta_seleccionada <~ st_sidebar_selectbox "Varias rutas disponibles:"
                           (unique (columna (fun f => ruta (datos f)) od))
                           (elige_ruta u) ;;
    evaluar (iloc0 (seleccionar od (col_eq ruta ruta_seleccionada od)))
  else evaluar (iloc0 od).

(** Lines 128 to 130. *)
Definition exigir_ruta_real (ruta_real : list Punto) : Script unit :=
  if empty ruta_real then
    st (error "Error al obtener ruta desde OSRM.") ;;; st_stop
  else ret tt.

(** Lines 135 to 151. *)
Definition indicadores (od : DataFrame) (duracion_min : option Q) : Script unit :=
  st (header "📊 Indicadores") ;;;
  st (columns [1; 1; 1]%Z) ;;;
  corta <~ evaluar (ruta_corta od) ;;
  st (metric "Ruta más corta" (Texto (ruta (datos corta)))
        (Some (Tal_cual (distancia corta) " km"))) ;;;
  freq <~ evaluar (ruta_freq od) ;;
  st (metric "Más frecuente" (Texto (ruta (datos freq)))
        (Some (Tal_cual (frecuencia freq) " buses/hora"))) ;;;
  eff <~ evaluar (ruta_eff od) ;;
  st (metric "Más eficiente" (Texto (ruta (datos eff)))
        (Some (Un_decimal (eficiencia eff) " pas/km"))) ;;;
  minutos <~ evaluar (match duracion_min with
                      | Some m => Valor m
                      | None => Lanza TypeError
                      end) ;;
  st (metric "⏱ Duración estimada (OSRM)" (Un_decimal minutos " minutos") None).

(** Lines 156 to 163. *)
Definition tabla_y_grafico (d od : DataFrame) (origen destino : option string)
    : Script unit :=
  st (header ("📋 Rutas disponibles entre " ++ str origen ++ " → " ++ str destino)) ;;;
  st (dataframe od) ;;;
  st (header "📈 Demanda total por ruta ") ;;;
  st (bar_chart (demanda_por_ruta d)).

(** Lines 168 to 224. *)
Definition mapas (d : DataFrame) : Script unit :=
  st (columns [4; 1]%Z) ;;;
  st (header "🛰️ Simulación del Recorrido Real (OSRM)") ;;;
  st empty_placeholder ;;;
  st (header "🗺️ Mapa general") ;;;
  st (caption "Vista rápida del sistema completo") ;;;
  st (folium_static (minimapa d)).

(** [d.iloc[a:b]] and [d.iloc[:b]]. *)
Definition iloc {A} (d : list A) (a b : nat) : list A :=
  firstn (b - a) (skipn a d).

Definition iloc_hasta {A} (d : list A) (b : nat) : list A :=
  firstn b d.

(** [s.iloc[0]] on a column. *)
Definition primero (s : list json) : py json :=
  match s with
  | x :: _ => Valor x
  | [] => Lanza IndexError
  end.

(** The rows of [d.iloc[a:b]] with their labels in the RangeIndex of
    [d]: a slice keeps the labels. *)
Definition rotular {A} (a : nat) (filas : list A) : list (nat * A) :=
  combine (seq a (List.length filas)) filas.

(** The icon layer over [punto], the slice that starts at row [i]. *)
Definition layer_bus (i : nat) (punto : list Punto) : Layer :=
  IconLayer (assign_icon (rotular i punto) icon_bus) "icon" 4 15 "[lon, lat]".

Definition layer_path (camino : list Punto) : Layer :=
  PathLayer [map (fun p => (lon p, lat p)) camino] [0; 150; 255]%Z 7 4.

(** One iteration of the loop of lines 228 to 264. *)
Definition cuadro (ruta_real : list Punto) (i : nat) : Script unit :=
  let punto := iloc ruta_real i (i + 1) in
  let camino := iloc_hasta ruta_real (i + 1) in
  la <~ evaluar (primero (map lat punto)) ;;
  lo <~ evaluar (primero (map lon punto)) ;;
  let view_state := {| latitude := la; longitude := lo; zoom := 14; pitch := 50 |} in
  let deck := {| layers := [layer_path camino; layer_bus i punto];
                 initial_view_state := view_state |} in
  st (pydeck_chart deck) ;;;
  st (sleep 0.12).

Definition simulacion (ruta_real : list Punto) : Script unit :=
  para (seq 0 (List.length ruta_real)) (cuadro ruta_real).

(** Lines 126 to 264: the fetch for the chosen row and all that is
    rendered from it. *)
Definition desde_ruta_real (d od : DataFrame) (origen destino : option string)
    (requests_get : Solicitud -> Respuesta) (f : Fila) : Script unit :=
  r <~ evaluar (obtener_ruta_osrm requests_get
                  (lat_inicio (datos f)) (lon_inicio (datos f))
                  (lat_fin (datos f)) (lon_fin (datos f))) ;;
  let ruta_real := fst r in
  let duracion_min := snd r in
  exigir_ruta_real ruta_real ;;;
  indicadores od duracion_min ;;;
  tabla_y_grafico d od origen destino ;;;
  mapas d ;;;
  simulacion ruta_real.

(** Lines 102 to 264: the page below the two selectboxes. *)
Definition desde_filtro (d : DataFrame) (origen destino : option string)
    (u : Usuario) (requests_get : Solicitud -> Respuesta) : Script unit :=
  let od := rutas_od d origen destino in
  exigir_rutas od ;;;
  f <~ fila od u ;;
  desde_ruta_real d od origen destino requests_get f.

(** The whole page, for a given file, user and routing service. *)
Definition pagina (archivo : list Registro) (u : Usuario)
    (requests_get : Solicitud -> Respuesta) : Script unit :=
  st (set_page_config "Movilidad CR" "🚍" "wide") ;;;
  let d := df archivo in
  st (title " Dashboard de Movilidad CR") ;;;
  st (markdown "Use el panel izquierdo para elegir **origen** y **destino**.") ;;;
  st (sidebar_header "🔎 Selección de Origen y Destino") ;;;
  origen <~ st_sidebar_selectbox "Seleccione el origen:"
              (sorted (unique (columna (fun f => inicio (datos f)) d)))
              (elige_origen u) ;;
  destino <~ st_sidebar_selectbox "Seleccione el destino:"
               (sorted (unique (columna (fun f => fin (datos f)) d)))
               (elige_destino u) ;;
  desde_filtro d origen destino u requests_get.

(** *** With a network that may fail *)

(** Line 53 as it is: [requests.get] answers, or it raises (no
    connection, a timeout), before the status is looked at and outside
    the [try] block; lines 56 to 74 then work on the answer. *)
Definition obtener_ruta_osrm_red (requests_get : Solicitud -> py Respuesta)
    (lat1 lon1 lat2 lon2 : Q) : py (list Punto * option Q) :=
  r <- requests_get (url lat1 lon1 lat2 lon2) ;;
  obtener_ruta_osrm (fun _ => r) lat1 lon1 lat2 lon2.

(** The page over any fetcher [obtener] called at line 126. *)
Definition desde_ruta_real_con
    (obtener : Q -> Q -> Q -> Q -> py (list Punto * option Q))
    (d od : DataFrame) (origen destino : option string) (f : Fila) : Script unit :=
  r <~ evaluar (obtener (lat_inicio (datos f)) (lon_inicio (datos f))
                        (lat_fin (datos f)) (lon_fin (datos f))) ;;
  let ruta_real := fst r in
  let duracion_min := snd r in
  exigir_ruta_real ruta_real ;;;
  indicadores od duracion_min ;;;
  tabla_y_grafico d od origen destino ;;;
  mapas d ;;;
  simulacion ruta_real.

Definition desde_filtro_con
    (obtener : Q -> Q -> Q -> Q -> py (list Punto * option Q))
    (d : DataFrame) (origen destino : option string) (u : Usuario) : Script unit :=
  let od := rutas_od d origen destino in
  exigir_rutas od ;;;
  f <~ fila od u ;;
  desde_ruta_real_con obtener d od origen destino f.

Definition pagina_con
    (obtener : Q -> Q -> Q -> Q -> py (list Punto * option Q))
    (archivo : list Registro) (u : Usuario) : Script unit :=
  st (set_page_config "Movilidad CR" "🚍" "wide") ;;;
  let d := df archivo in
  st (title " Dashboard de Movilidad CR") ;;;
  st (markdown "Use el panel izquierdo para elegir **origen** y **destino**.") ;;;
  st (sidebar_header "🔎 Selección de Origen y Destino") ;;;
  origen <~ st_sidebar_selectbox "Seleccione el origen:"
              (sorted (unique (columna (fun f => inicio (datos f)) d)))
              (elige_origen u) ;;
  destino <~ st_sidebar_selectbox "Seleccione el destino:"
               (sorted (unique (columna (fun f => fin (datos f)) d)))
               (elige_destino u) ;;
  desde_filtro_con obtener d origen destino u.

(** The whole page when the network may fail. *)
Definition pagina_red (archivo : list Registro) (u : Usuario)
    (requests_get : Solicitud -> py Respuesta) : Script unit :=
  pagina_con (obtener_ruta_osrm_red requests_get) archivo u.

(** The values of the origin and destination selectboxes. *)
Definition origen_de (archivo : list Registro) (u : Usuario) : option string :=
  selectbox (sorted (unique (columna (fun f => inicio (datos f)) (df archivo))))
    (elige_origen u).

Definition destino_de (archivo : list Registro) (u : Usuario) : option string :=
  selectbox (sorted (unique (columna (fun f => fin (datos f)) (df archivo))))
    (elige_destino u).

(** What the page shows before the selection is filtered. *)
Definition encabezado (archivo : list Registro) (u : Usuario) : list evento :=
  [ set_page_config "Movilidad CR" "🚍" "wide";
    title " Dashboard de Movilidad CR";
    markdown "Use el panel izquierdo para elegir **origen** y **destino**.";
    sidebar_header "🔎 Selección de Origen y Destino";
    sidebar_selectbox "Seleccione el origen:"
      (sorted (unique (columna (fun f => inicio (datos f)) (df archivo))))
      (origen_de archivo u);
    sidebar_selectbox "Seleccione el destino:"
      (sorted (unique (columna (fun f => fin (datos f)) (df archivo))))
      (destino_de archivo u) ].

(** *** Reading a run *)

(** [c] is a row of [d] with the least value of [col], and the first
    such row: the rows before it have strictly greater values. *)
Definition alcanza_minimo (col : Fila -> Q) (d : DataFrame) (c : Fila) : Prop :=
  exists l1 l2,
    d = l1 ++ c :: l2 /\
    (forall f, In f l1 -> (col c < col f)%Q) /\
    (forall f, In f l2 -> (col c <= col f)%Q).

(** [c] is a row of [d] with the greatest value of [col], and the
    first such row. *)
Definition alcanza_maximo (col : Fila -> Q) (d : DataFrame) (c : Fila) : Prop :=
  exists l1 l2,
    d = l1 ++ c :: l2 /\
    (forall f, In f l1 -> (col f < col c)%Q) /\
    (forall f, In f l2 -> (col f <= col c)%Q).

(** A row matches the selection when both labels are the chosen ones. *)
Definition coincide (origen destino : option string) (f : Fila) : Prop :=
  Some (inicio (datos f)) = origen /\ Some (fin (datos f)) = destino.

Definition coincide_b (origen destino : option string) (f : Fila) : bool :=
  match origen, destino with
  | Some o, Some d => (inicio (datos f) =? o) && (fin (datos f) =? d)
  | _, _ => false
  end.

(** The calls that render indicators, the table, the chart, a map or
    an animation frame. *)
Definition es_contenido (e : evento) : bool :=
  match e with
  | metric _ _ _ | dataframe _ | bar_chart _ | folium_static _
  | pydeck_chart _ | empty_placeholder | sleep _ => true
  | _ => false
  end.

Definition cuadros (t : list evento) : list Deck :=
  flat_map (fun e => match e with pydeck_chart d => [d] | _ => [] end) t.

(** The rows under the current-position marker of a frame. *)
Definition marcador (d : Deck) : list Punto :=
  flat_map (fun l => match l with
                     | IconLayer data _ _ _ _ => map fst data
                     | PathLayer _ _ _ _ => []
                     end) (layers d).



(** The frame drawn at index [i] when [p] is the point at [i]. *)
Definition deck_de (ruta_real : list Punto) (i : nat) (p : Punto) : Deck :=
  {| layers := [layer_path (iloc_hasta ruta_real (i + 1)); layer_bus i [p]];
     initial_view_state :=
       {| latitude := lat p; longitude := lon p; zoom := 14; pitch := 50 |} |}.

Definition traza_de (ruta_real : list Punto) (ip : nat * Punto) : list evento :=
  [pydeck_chart (deck_de ruta_real (fst ip) (snd ip)); sleep 0.12].

(** *** More readings *)

(** The fields the fetcher reads are present, whatever their values. *)
Definition campos_presentes (data coords segundos : json) : Prop :=
  exists rutas primera geometria,
    campo "routes" data = Some rutas /\
    elemento 0 rutas = Some primera /\
    campo "geometry" primera = Some geometria /\
    campo "coordinates" geometria = Some coords /\
    campo "duration" primera = Some segundos.

Definition es_numero (v : json) : bool :=
  match v with
  | JNum _ | JBool _ => true
  | _ => false
  end.

Definition es_error (e : evento) : bool :=
  match e with
  | error _ => true
  | _ => false
  end.

(** Neither content nor an error message. *)
Definition es_marco (e : evento) : bool :=
  negb (es_contenido e) && negb (es_error e).

(** What lines 156 to 224 render. *)
Definition traza_tabla_mapas (d od : DataFrame) (origen destino : option string)
    : list evento :=
  [ header ("📋 Rutas disponibles entre " ++ str origen ++ " → " ++ str destino);
    dataframe od;
    header "📈 Demanda total por ruta ";
    bar_chart (demanda_por_ruta d);
    columns [4; 1]%Z;
    header "🛰️ Simulación del Recorrido Real (OSRM)";
    empty_placeholder;
    header "🗺️ Mapa general";
    caption "Vista rápida del sistema completo";
    folium_static (minimapa d) ].

Definition antes (a b : string) : Prop := String.ltb a b = true.

(** Total of the average passengers over the rows of a route name. *)
Definition suma_ruta (k : string) (d : DataFrame) : Q :=
  fold_right Qplus 0%Q
    (map (fun f => pasajeros_prom (datos f))
       (filter (fun f => ruta (datos f) =? k) d)).

(** Total of the values listed under a key. *)
Definition total (k : string) (l : list (string * Q)) : Q :=
  fold_right Qplus 0%Q (map snd (filter (fun kv => fst kv =? k) l)).

Definition paso_demanda (acc : list (string * Q)) (f : Fila) : list (string * Q) :=
  acumular (ruta (datos f)) (pasajeros_prom (datos f)) acc.

(** Low, medium, high. *)
Definition nivel (c : string) : nat :=
  if c =? "green" then 2 else if c =? "orange" then 1 else 0.

(** Seconds slept in a run. *)
Fixpoint espera (t : list evento) : Q :=
  match t with
  | [] => 0
  | sleep s :: resto => s + espera resto
  | _ :: resto => espera resto
  end.

(** The row made of a point given as a list of entries. *)
Definition punto_de_entradas (l : list json) : Punto :=
  {| lat := nth 1 l JNull; lon := nth 0 l JNull |}.

(** The icon cells of the frame. *)
Definition iconos (d : Deck) : list (option json) :=
  flat_map (fun l => match l with
                     | IconLayer data _ _ _ _ => map snd data
                     | PathLayer _ _ _ _ => []
                     end) (layers d).

(** ** Examples *)

Definition archivo_ejemplo : list Registro :=
  [ {| inicio := "A"; fin := "B"; ruta := "R1";
       lat_inicio := 9.93; lon_inicio := -84.08;
       lat_fin := 10.01; lon_fin := -84.21;
       distancia_km := 20; pasajeros_prom := 50; frecuencia_hora := 4 |};
    {| inicio := "A"; fin := "B"; ruta := "R2";
       lat_inicio := 9.93; lon_inicio := -84.08;
       lat_fin := 10.01; lon_fin := -84.21;
       distancia_km := 25; pasajeros_prom := 100; frecuencia_hora := 6 |};
    {| inicio := "A"; fin := "C"; ruta := "R3";
       lat_inicio := 9.93; lon_inicio := -84.08;
       lat_fin := 9.86; lon_fin := -83.91;
       distancia_km := 10; pasajeros_prom := 80; frecuencia_hora := 2 |};
    {| inicio := "B"; fin := "C"; ruta := "R4";
       lat_inicio := 10.01; lon_inicio := -84.21;
       lat_fin := 9.86; lon_fin := -83.91;
       distancia_km := 30; pasajeros_prom := 60; frecuencia_hora := 3 |} ].

Definition registro_R2 : Registro :=
  {| inicio := "A"; fin := "B"; ruta := "R2";
     lat_inicio := 9.93; lon_inicio := -84.08;
     lat_fin := 10.01; lon_fin := -84.21;
     distancia_km := 25; pasajeros_prom := 100; frecuencia_hora := 6 |}.

(** B to B: a pair of labels that no row has. *)
Definition usuario_B_B : Usuario :=
  {| elige_origen := 1; elige_destino := 0; elige_ruta := 0 |}.

(** A to B, second route name. *)
Definition usuario_A_B : Usuario :=
  {| elige_origen := 0; elige_destino := 0; elige_ruta := 1 |}.

(** A 200 response of the expected shape with no point. *)
Definition respuesta_sin_puntos : Respuesta :=
  {| status_code := 200;
     r_json := Valor (JObj [("code", JStr "Ok"); ("routes", JArr [JObj
       [("geometry", JObj [("coordinates", JArr []); ("type", JStr "LineString")]);
        ("duration", JNum 0)]])]) |}.

Definition respuesta_503 : Respuesta :=
  {| status_code := 503; r_json := Lanza JSONDecodeError |}.

(** A 200 response whose only point lacks its latitude. *)
Definition respuesta_punto_corto : Respuesta :=
  {| status_code := 200;
     r_json := Valor (JObj [("routes", JArr [JObj
       [("geometry", JObj [("coordinates", JArr [JArr [JNum 10]])]);
        ("duration", JNum 600)]])]) |}.

(** A 200 response with no routes key. *)
Definition respuesta_sin_routes : Respuesta :=
  {| status_code := 200;
     r_json := Valor (JObj [("code", JStr "NoRoute");
                            ("message", JStr "Impossible route")]) |}.

(** The frame from A to B, the row of R2 in it, and what choosing that
    row renders. *)
Definition od_A_B : DataFrame :=
  rutas_od (df archivo_ejemplo) (origen_de archivo_ejemplo usuario_A_B)
    (destino_de archivo_ejemplo usuario_A_B).

Definition fila_R2 : Fila :=
  {| etiqueta := 1; datos := registro_R2; eficiencia := (100 / 25)%Q |}.

Definition fila_R4 : Fila :=
  {| etiqueta := 3;
     datos := {| inicio := "B"; fin := "C"; ruta := "R4";
                 lat_inicio := 10.01; lon_inicio := -84.21;
                 lat_fin := 9.86; lon_fin := -83.91;
                 distancia_km := 30; pasajeros_prom := 60;
                 frecuencia_hora := 3 |};
     eficiencia := (60 / 30)%Q |}.

Definition traza_fila_A_B : list evento :=
  [ sidebar_selectbox "Varias rutas disponibles:" ["R1"; "R2"] (Some "R2") ].

Definition ruta_ejemplo : list Punto :=
  [ {| lat := JNum 20; lon := JNum 10 |};
    {| lat := JNum 21; lon := JNum 11 |} ].

(** A 200 response whose duration is a text. *)
Definition cuerpo_duracion_texto : json :=
  JObj [("routes", JArr [JObj
    [("geometry", JObj [("coordinates",
        JArr [JArr [JNum 10; JNum 20]; JArr [JNum 11; JNum 21]])]);
     ("duration", JStr "600")]])].

Definition respuesta_duracion_texto : Respuesta :=
  {| status_code := 200; r_json := Valor cuerpo_duracion_texto |}.

(** A 200 response with an altitude in its first point, entries that
    are not numbers in its second, and a boolean duration. *)
Definition puntos_con_altura : list (list json) :=
  [ [JNum 10; JNum 20; JNum 300]; [JStr "a"; JNull] ].

Definition cuerpo_con_altura : json :=
  JObj [("routes", JArr [JObj
    [("geometry", JObj [("coordinates", JArr (map JArr puntos_con_altura))]);
     ("duration", JBool true)]])].

Definition respuesta_con_altura : Respuesta :=
  {| status_code := 200; r_json := Valor cuerpo_con_altura |}.

Definition cuerpo_punto_corto : json :=
  JObj [("routes", JArr [JObj
    [("geometry", JObj [("coordinates", JArr [JArr [JNum 10]])]);
     ("duration", JNum 600)]])].

(** A service that answers the example to every request to the OSRM
    endpoint and 503 to anything else. *)
Definition servicio_por_endpoint (s : Solicitud) : Respuesta :=
  if endpoint s =? "https://router.project-osrm.org/route/v1/driving/"
  then respuesta_ejemplo else respuesta_503.

(** A network that is down. *)
Definition red_caida (s : Solicitud) : py Respuesta := Lanza RequestException.

(** A network that answers every request with the example. *)
Definition red_ejemplo (s : Solicitud) : py Respuesta := Valor respuesta_ejemplo.

(** A network that answers every request with the one-entry point. *)
Definition red_punto_corto (s : Solicitud) : py Respuesta :=
  Valor respuesta_punto_corto.

(** * Properties *)

(** ** The route fetcher *)

Section Fetcher.

Variable requests_get : Solicitud -> Respuesta.
Variables lat1 lon1 lat2 lon2 : Q.

Let r := requests_get (url lat1 lon1 lat2 lon2).

Lemma campo_getitem (k : string) (v w : json) :
  campo k v = Some w -> getitem_str v k = Valor w.
Proof.
  destruct v; simpl; try discriminate.
  intros H. now rewrite H.
Qed.

Lemma elemento_getitem (n : nat) (v w : json) :
  elemento n v = Some w -> getitem_int v n = Valor w.
Proof.
  destruct v; simpl; try discriminate.
  intros H. now rewrite H.
Qed.

Lemma campo_falta (k : string) (v : json) :
  campo k v = None -> exists e, getitem_str v k = Lanza e.
Proof.
  destruct v; simpl; intros H; try (eexists; reflexivity).
  rewrite H. eexists; reflexivity.
Qed.

Lemma py_map_puntos (pts : list (Q * Q)) :
  py_map punto_de (map punto_geojson pts) = Valor (map a_punto pts).
Proof.
  induction pts as [|p pts IH]; simpl.
  - reflexivity.
  - rewrite IH. reflexivity.
Qed.

Lemma extraer_forma (data : json) (pts : list (Q * Q)) (segundos : Q) :
  r_json r = Valor data ->
  forma_esperada data pts segundos ->
  extraer r = Valor (JArr (map punto_geojson pts), (segundos / 60)%Q).
Proof.
  intros Hj (rutas & primera & geometria & Hr & Hp & Hg & Hc & Hd).
  unfold extraer. rewrite Hj. simpl.
  rewrite (campo_getitem _ _ _ Hr). simpl.
  rewrite (elemento_getitem _ _ _ Hp). simpl.
  rewrite (campo_getitem _ _ _ Hg). simpl.
  rewrite (campo_getitem _ _ _ Hc). simpl.
  rewrite (campo_getitem _ _ _ Hd). reflexivity.
Qed.

Lemma obtener_forma (data : json) (pts : list (Q * Q)) (segundos : Q) :
  status_code r = 200%Z ->
  r_json r = Valor data ->
  forma_esperada data pts segundos ->
  obtener_ruta_osrm requests_get lat1 lon1 lat2 lon2
  = Valor (map a_punto pts, Some (segundos / 60)%Q).
Proof.
  intros Hs Hj Hf. unfold obtener_ruta_osrm. fold r.
  rewrite Hs. simpl.
  rewrite (extraer_forma data pts segundos Hj Hf). simpl.
  rewrite py_map_puntos. reflexivity.
Qed.

(** A missing field makes the [try] block raise. *)
Lemma extraer_falta (data : json) :
  r_json r = Valor data -> falta_campo data -> exists e, extraer r = Lanza e.
Proof.
  intros Hj Hf. unfold extraer. rewrite Hj. simpl.
  destruct Hf as [Hr | rutas Hr Hp | rutas primera Hr Hp Hg
                 | rutas primera geometria Hr Hp Hg Hc | rutas primera Hr Hp Hd].
  - destruct (campo_falta _ _ Hr) as [e He]. rewrite He. now exists e.
  - rewrite (campo_getitem _ _ _ Hr). simpl.
    destruct rutas as [| | | s | l | l]; simpl in *;
      try (eexists; reflexivity).
    + destruct s as [|c s]; simpl; eexists; reflexivity.
    + rewrite Hp. eexists; reflexivity.
  - rewrite (campo_getitem _ _ _ Hr). simpl.
    rewrite (elemento_getitem _ _ _ Hp). simpl.
    destruct (campo_falta _ _ Hg) as [e He]. rewrite He. now exists e.
  - rewrite (campo_getitem _ _ _ Hr). simpl.
    rewrite (elemento_getitem _ _ _ Hp). simpl.
    rewrite (campo_getitem _ _ _ Hg). simpl.
    destruct (campo_falta _ _ Hc) as [e He]. rewrite He. now exists e.
  - rewrite (campo_getitem _ _ _ Hr). simpl.
    rewrite (elemento_getitem _ _ _ Hp). simpl.
    destruct (getitem_str primera "geometry") as [g|e]; simpl;
      [|now exists e].
    destruct (getitem_str g "coordinates") as [c|e]; simpl;
      [|now exists e].
    destruct (campo_falta _ _ Hd) as [e He]. rewrite He. now exists e.
Qed.

(** C2. Whenever the status is not 200, or [r.json()] raises on the
    body, or the parsed body lacks one of the fields the fetcher reads
    (routes, its first element, geometry, coordinates, duration), the
    fetcher returns the empty DataFrame with no duration; it does not
    raise. *)
Theorem obtener_ruta_osrm_fallo :
  status_code r <> 200%Z \/
  (exists e, r_json r = Lanza e) \/
  (exists data, r_json r = Valor data /\ falta_campo data) ->
  obtener_ruta_osrm requests_get lat1 lon1 lat2 lon2 = Valor ([], None).
Proof.
  intros H. unfold obtener_ruta_osrm. fold r.
  destruct (Z.eqb_spec (status_code r) 200) as [Hs|Hs]; simpl;
    [|reflexivity].
  destruct H as [H | [[e He] | (data & Hj & Hf)]].
  - contradiction.
  - unfold extraer. rewrite He. reflexivity.
  - destruct (extraer_falta data Hj Hf) as [e He]. rewrite He. reflexivity.
Qed.

End Fetcher.

Lemma obtener_ruta_osrm_estado (requests_get : Solicitud -> Respuesta)
    (lat1 lon1 lat2 lon2 : Q) :
  status_code (requests_get (url lat1 lon1 lat2 lon2)) <> 200%Z ->
  obtener_ruta_osrm requests_get lat1 lon1 lat2 lon2 = Valor ([], None).
Proof.
  intros H. unfold obtener_ruta_osrm.
  destruct (Z.eqb_spec (status_code (requests_get (url lat1 lon1 lat2 lon2))) 200);
    [contradiction | reflexivity].
Qed.

(** C1. On a 200 response whose body has the expected shape, the
    fetcher returns the first route's points, each [lon, lat] pair
    turned into a (lat, lon) row, and the duration divided by 60; on
    the response of the example these are the rows (20, 10), (21, 11)
    and a duration equal to 10. *)
Theorem obtener_ruta_osrm_exito :
  (forall requests_get lat1 lon1 lat2 lon2 data pts segundos,
      let r := requests_get (url lat1 lon1 lat2 lon2) in
      status_code r = 200%Z ->
      r_json r = Valor data ->
      forma_esperada data pts segundos ->
      obtener_ruta_osrm requests_get lat1 lon1 lat2 lon2
      = Valor (map a_punto pts, Some (segundos / 60)%Q)) /\
  (forall lat1 lon1 lat2 lon2,
      exists minutos,
        obtener_ruta_osrm (fun _ => respuesta_ejemplo) lat1 lon1 lat2 lon2
        = Valor ([ {| lat := JNum 20; lon := JNum 10 |};
                   {| lat := JNum 21; lon := JNum 11 |} ], Some minutos) /\
        (minutos == 10)%Q).
Proof.
  split.
  - intros rg la1 lo1 la2 lo2 data pts segundos r0 Hs Hj Hf.
    exact (obtener_forma rg la1 lo1 la2 lo2 data pts segundos Hs Hj Hf).
  - intros la1 lo1 la2 lo2. exists (600 / 60)%Q. split; reflexivity.
Qed.

Lemma obtener_ruta_osrm_exito_witness :
  obtener_ruta_osrm (fun _ => respuesta_ejemplo) 9.93 (-84.08) 10.01 (-84.21)
  = Valor (map a_punto [(10, 20); (11, 21)]%Q, Some (600 / 60)%Q).
Proof.
  apply (proj1 obtener_ruta_osrm_exito (fun _ => respuesta_ejemplo)
           9.93 (-84.08) 10.01 (-84.21)
           (JObj [("routes", JArr [JObj
              [("geometry", JObj [("coordinates",
                  JArr [JArr [JNum 10; JNum 20]; JArr [JNum 11; JNum 21]])]);
               ("duration", JNum 600)]])])
           [(10, 20); (11, 21)]%Q 600%Q).
  - reflexivity.
  - reflexivity.
  - unfold forma_esperada. do 3 eexists. repeat split; reflexivity.
Defined.

Lemma obtener_ruta_osrm_fallo_witness :
  obtener_ruta_osrm (fun _ => respuesta_503) 9.93 (-84.08) 10.01 (-84.21)
  = Valor ([], None) /\
  obtener_ruta_osrm (fun _ => respuesta_sin_routes) 9.93 (-84.08) 10.01 (-84.21)
  = Valor ([], None).
Proof.
  split.
  - apply obtener_ruta_osrm_fallo. left. simpl. discriminate.
  - apply obtener_ruta_osrm_fallo. right. right.
    eexists. split; [reflexivity|]. apply falta_routes. reflexivity.
Defined.

(** The rows are built after the [try] block: a point with fewer than
    two entries is not a missing field, and there the fetcher raises. *)
Example obtener_ruta_osrm_punto_corto :
  obtener_ruta_osrm (fun _ => respuesta_punto_corto) 9.93 (-84.08) 10.01 (-84.21)
  = Lanza IndexError.
Proof. reflexivity. Qed.

(** ** The table and its derived column *)

Lemma combine_map_map {A B C} (f : A -> B) (g : A -> C) (l : list A) :
  combine (map f l) (map g l) = map (fun x => (f x, g x)) l.
Proof.
  induction l as [|x l IH]; simpl; [reflexivity | now rewrite IH].
Qed.

Lemma combine_map_r {A B} (g : A -> B) (l : list A) :
  combine l (map g l) = map (fun x => (x, g x)) l.
Proof.
  induction l as [|x l IH]; simpl; [reflexivity | now rewrite IH].
Qed.

Lemma fst_combine_seq {A} (l : list A) (s : nat) :
  map fst (combine (seq s (List.length l)) l) = seq s (List.length l).
Proof.
  revert s. induction l as [|x l IH]; intros s; simpl;
    [reflexivity | now rewrite IH].
Qed.

Lemma snd_combine_seq {A} (l : list A) (s : nat) :
  map snd (combine (seq s (List.length l)) l) = l.
Proof.
  revert s. induction l as [|x l IH]; intros s; simpl;
    [reflexivity | now rewrite IH].
Qed.

(** Row by row, [df] is the loaded table with the quotient added. *)
Lemma df_filas (archivo : list Registro) :
  df archivo
  = map (fun ir => {| etiqueta := fst ir;
                      datos := snd ir;
                      eficiencia := (pasajeros_prom (snd ir) / distancia_km (snd ir))%Q |})
        (load_data archivo).
Proof.
  unfold df, asignar_eficiencia, serie_div, columna0.
  rewrite combine_map_map, map_map, combine_map_r, map_map.
  reflexivity.
Qed.

Lemma df_datos (archivo : list Registro) :
  map datos (df archivo) = archivo.
Proof.
  rewrite df_filas, map_map. simpl.
  apply snd_combine_seq.
Qed.

Lemma df_etiquetas (archivo : list Registro) :
  map etiqueta (df archivo) = seq 0 (List.length archivo).
Proof.
  rewrite df_filas, map_map. simpl.
  apply fst_combine_seq.
Qed.

Lemma df_NoDup (archivo : list Registro) :
  NoDup (map etiqueta (df archivo)).
Proof.
  rewrite df_etiquetas. apply seq_NoDup.
Qed.

Lemma nth_error_combine_seq {A} (l : list A) (s i : nat) (x : A) :
  nth_error l i = Some x ->
  nth_error (combine (seq s (List.length l)) l) i = Some ((s + i)%nat, x).
Proof.
  revert s i. induction l as [|y l IH]; intros s [|i] H; simpl in *;
    try discriminate.
  - injection H as ->. now rewrite Nat.add_0_r.
  - rewrite (IH (S s) i H). do 2 f_equal. lia.
Qed.

(** C6. Every record of the file is, at its position, a row of [df],
    and when its distance is not zero the efficiency of that row is the
    average passengers divided by the distance: it is that quotient,
    and multiplied back by the distance it gives the passengers. *)
Theorem eficiencia_es_cociente (archivo : list Registro) (i : nat) (reg : Registro) :
  nth_error archivo i = Some reg ->
  ~ (distancia_km reg == 0)%Q ->
  exists f,
    nth_error (df archivo) i = Some f /\
    datos f = reg /\
    eficiencia f = (pasajeros_prom reg / distancia_km reg)%Q /\
    (eficiencia f * distancia_km reg == pasajeros_prom reg)%Q.
Proof.
  intros Hi Hd.
  exists {| etiqueta := i; datos := reg;
            eficiencia := (pasajeros_prom reg / distancia_km reg)%Q |}.
  repeat split.
  - rewrite df_filas, nth_error_map. unfold load_data.
    rewrite (nth_error_combine_seq _ 0 _ _ Hi). reflexivity.
  - simpl. field. exact Hd.
Qed.

Lemma eficiencia_es_cociente_witness :
  exists f,
    nth_error (df archivo_ejemplo) 1 = Some f /\
    datos f = registro_R2 /\
    eficiencia f = (100 / 25)%Q /\
    (eficiencia f * 25 == 100)%Q.
Proof.
  apply (eficiencia_es_cociente archivo_ejemplo 1 registro_R2).
  - reflexivity.
  - simpl. intros H. discriminate H.
Defined.

(** ** The selection filter *)

Lemma seleccionar_map (m : Fila -> bool) (d : DataFrame) :
  seleccionar d (map m d) = filter m d.
Proof.
  unfold seleccionar. rewrite combine_map_r.
  induction d as [|f d IH]; simpl; [reflexivity|].
  destruct (m f); simpl; now rewrite IH.
Qed.

Lemma coincide_b_spec (origen destino : option string) (f : Fila) :
  coincide_b origen destino f = true <-> coincide origen destino f.
Proof.
  unfold coincide_b, coincide.
  destruct origen as [o|], destino as [d|]; simpl;
    try (split; [discriminate | intros [H1 H2]; discriminate]).
  rewrite andb_true_iff, !String.eqb_eq.
  split; intros [H1 H2].
  - now subst.
  - injection H1 as ->. injection H2 as ->. now split.
Qed.

(** The boolean masks of line 102 select what a plain filter selects. *)
Lemma rutas_od_filter (d : DataFrame) (origen destino : option string) :
  rutas_od d origen destino = filter (coincide_b origen destino) d.
Proof.
  unfold rutas_od, mask_and, col_eq.
  rewrite combine_map_map, map_map, seleccionar_map.
  apply filter_ext. intros f. unfold coincide_b. simpl.
  destruct origen, destino; simpl; try reflexivity.
  apply andb_false_r.
Qed.

(** C4. For every table and every chosen origin and destination, the
    filtered frame holds exactly the rows whose origin is the chosen
    origin and whose destination is the chosen destination: a row is in
    it if and only if it is such a row of the table, and the rows kept
    stay in table order, each as often as in the table. *)
Theorem rutas_od_exacto (d : DataFrame) (origen destino : option string) :
  (forall f, In f (rutas_od d origen destino) <->
             In f d /\ coincide origen destino f) /\
  rutas_od d origen destino = filter (coincide_b origen destino) d.
Proof.
  split; [|apply rutas_od_filter].
  intros f. rewrite rutas_od_filter, filter_In, coincide_b_spec.
  reflexivity.
Qed.

(** The spec's example: A to B is served by R1 and R2 only. *)
Example rutas_od_A_B :
  map (fun f => ruta (datos f))
      (rutas_od (df archivo_ejemplo) (Some "A") (Some "B")) = ["R1"; "R2"].
Proof. reflexivity. Qed.

Lemma rutas_od_NoDup (d : DataFrame) (origen destino : option string) :
  NoDup (map etiqueta d) -> NoDup (map etiqueta (rutas_od d origen destino)).
Proof.
  rewrite rutas_od_filter. generalize (coincide_b origen destino) as p.
  intros p. induction d as [|f d IH]; simpl; intros H; [constructor|].
  inversion H as [|x l Hn Hd]; subst.
  destruct (p f); simpl; [|now apply IH].
  constructor; [|now apply IH].
  intros Hin. apply Hn. apply in_map_iff in Hin.
  destruct Hin as (g & Hg & Hin). apply filter_In in Hin.
  apply in_map_iff. exists g. tauto.
Qed.

(** ** The indicators *)

Section Extremo.

Variable mejor : Q -> Q -> bool.
Hypothesis mejor_total : forall x y, mejor x y = false -> mejor y x = true.
Hypothesis mejor_trans :
  forall x y z, mejor x y = true -> mejor y z = true -> mejor x z = true.
Variable col : Fila -> Q.

Lemma primer_extremo_vacio (d : DataFrame) :
  primer_extremo mejor (serie col d) = None -> d = [].
Proof.
  destruct d as [|f d]; [reflexivity|]. simpl.
  destruct (primer_extremo mejor (serie col d)) as [[j y]|];
    [destruct (mejor (col f) y)|]; discriminate.
Qed.

(** The entry chosen splits the frame: the rows before it are beaten
    strictly, the rows after it are not better. *)
Lemma primer_extremo_partes (d : DataFrame) (i : nat) (x : Q) :
  primer_extremo mejor (serie col d) = Some (i, x) ->
  exists l1 c l2,
    d = l1 ++ c :: l2 /\ etiqueta c = i /\ col c = x /\
    (forall f, In f l1 -> mejor (col f) x = false) /\
    (forall f, In f l2 -> mejor x (col f) = true).
Proof.
  revert i x. induction d as [|f d IH]; intros i x; simpl; [discriminate|].
  destruct (primer_extremo mejor (serie col d)) as [[j y]|] eqn:E.
  - destruct (IH j y eq_refl) as (l1 & c & l2 & Hd & Hl & Hc & H1 & H2).
    destruct (mejor (col f) y) eqn:M; intros H; injection H as <- <-.
    + exists [], f, d. repeat split; [intros g []|].
      intros g Hg. rewrite Hd in Hg. apply in_app_or in Hg.
      destruct Hg as [Hg | [<- | Hg]].
      * apply (mejor_trans _ y); [exact M|]. apply mejor_total. now apply H1.
      * now rewrite Hc.
      * apply (mejor_trans _ y); [exact M|]. now apply H2.
    + exists (f :: l1), c, l2. repeat split; try assumption.
      * now rewrite Hd.
      * intros g [<- | Hg]; [exact M | now apply H1].
  - intros H; injection H as <- <-.
    apply primer_extremo_vacio in E. subst d.
    exists [], f, []. repeat split; intros g [].
Qed.

End Extremo.

Lemma loc_partes (l1 l2 : DataFrame) (c : Fila) :
  NoDup (map etiqueta (l1 ++ c :: l2)) ->
  loc (l1 ++ c :: l2) (etiqueta c) = Valor c.
Proof.
  unfold loc. induction l1 as [|g l1 IH]; simpl; intros H.
  - now rewrite Nat.eqb_refl.
  - inversion H as [|x l Hn Hd]; subst.
    destruct (Nat.eqb_spec (etiqueta g) (etiqueta c)) as [E|E].
    + exfalso. apply Hn. rewrite E, map_app. apply in_or_app.
      right. now left.
    + now apply IH.
Qed.

Lemma menor_total (x y : Q) :
  menor_o_igual x y = false -> menor_o_igual y x = true.
Proof.
  unfold menor_o_igual. intros H. apply Qle_bool_iff.
  destruct (Qlt_le_dec y x) as [L|L]; [now apply Qlt_le_weak|].
  apply Qle_bool_iff in L. congruence.
Qed.

Lemma menor_trans (x y z : Q) :
  menor_o_igual x y = true -> menor_o_igual y z = true ->
  menor_o_igual x z = true.
Proof.
  unfold menor_o_igual. rewrite !Qle_bool_iff. apply Qle_trans.
Qed.

Lemma Qle_bool_false (x y : Q) : Qle_bool x y = false -> (y < x)%Q.
Proof.
  intros H. destruct (Qlt_le_dec y x) as [L|L]; [exact L|].
  apply Qle_bool_iff in L. congruence.
Qed.

(** [idxmin] followed by [loc] on a frame with distinct labels. *)
Lemma idxmin_loc (col : Fila -> Q) (d : DataFrame) :
  d <> [] -> NoDup (map etiqueta d) ->
  exists c, (i <- idxmin (serie col d) ;; loc d i) = Valor c /\
            alcanza_minimo col d c.
Proof.
  intros Hne Hnd. unfold idxmin.
  destruct (primer_extremo menor_o_igual (serie col d)) as [[i x]|] eqn:E.
  - destruct (primer_extremo_partes _ menor_total menor_trans col d i x E)
      as (l1 & c & l2 & Hd & Hl & Hc & H1 & H2).
    exists c. subst d i x. simpl. split; [now apply loc_partes|].
    exists l1, l2. repeat split.
    + intros f Hf. apply Qle_bool_false. now apply H1.
    + intros f Hf. apply Qle_bool_iff. now apply H2.
  - apply primer_extremo_vacio in E. contradiction.
Qed.

Lemma idxmax_loc (col : Fila -> Q) (d : DataFrame) :
  d <> [] -> NoDup (map etiqueta d) ->
  exists c, (i <- idxmax (serie col d) ;; loc d i) = Valor c /\
            alcanza_maximo col d c.
Proof.
  intros Hne Hnd. unfold idxmax.
  destruct (primer_extremo mayor_o_igual (serie col d)) as [[i x]|] eqn:E.
  - destruct (primer_extremo_partes mayor_o_igual
                (fun x y => menor_total y x)
                (fun x y z H1 H2 => menor_trans z y x H2 H1) col d i x E)
      as (l1 & c & l2 & Hd & Hl & Hc & H1 & H2).
    exists c. subst d i x. simpl. split; [now apply loc_partes|].
    exists l1, l2. repeat split.
    + intros f Hf. apply Qle_bool_false. now apply H1.
    + intros f Hf. apply Qle_bool_iff. now apply H2.
  - apply primer_extremo_vacio in E. contradiction.
Qed.

Lemma alcanza_minimo_cota (col : Fila -> Q) (d : DataFrame) (c : Fila) :
  alcanza_minimo col d c ->
  In c d /\ forall f, In f d -> (col c <= col f)%Q.
Proof.
  intros (l1 & l2 & -> & H1 & H2). split.
  - apply in_or_app. right. now left.
  - intros f Hf. apply in_app_or in Hf. destruct Hf as [Hf | [<- | Hf]].
    + apply Qlt_le_weak. now apply H1.
    + apply Qle_refl.
    + now apply H2.
Qed.

Lemma alcanza_maximo_cota (col : Fila -> Q) (d : DataFrame) (c : Fila) :
  alcanza_maximo col d c ->
  In c d /\ forall f, In f d -> (col f <= col c)%Q.
Proof.
  intros (l1 & l2 & -> & H1 & H2). split.
  - apply in_or_app. right. now left.
  - intros f Hf. apply in_app_or in Hf. destruct Hf as [Hf | [<- | Hf]].
    + apply Qlt_le_weak. now apply H1.
    + apply Qle_refl.
    + now apply H2.
Qed.



(** On the example, R1 is the shortest and R2 both the most frequent
    and the most efficient of the routes from A to B. *)
Example indicadores_A_B :
  let od := rutas_od (df archivo_ejemplo) (Some "A") (Some "B") in
  option_map (fun f => ruta (datos f))
    (match ruta_corta od with Valor f => Some f | Lanza _ => None end) = Some "R1" /\
  option_map (fun f => ruta (datos f))
    (match ruta_freq od with Valor f => Some f | Lanza _ => None end) = Some "R2" /\
  option_map (fun f => ruta (datos f))
    (match ruta_eff od with Valor f => Some f | Lanza _ => None end) = Some "R2".
Proof. repeat split. Qed.

(** ** Resolving the selection to one row *)

Lemma unique_In (x : string) (l : list string) :
  In x (unique l) <-> In x l.
Proof.
  induction l as [|y l IH]; simpl; [reflexivity|].
  rewrite filter_In, IH, negb_true_iff, String.eqb_neq.
  destruct (String.eqb_spec y x) as [E|E]; [tauto|].
  split; [tauto|]. intros [H|H]; [contradiction|].
  right. split; [exact H|congruence].
Qed.

Lemma selectbox_In (opciones : list string) (i : nat) :
  opciones <> [] ->
  exists s, selectbox opciones i = Some s /\ In s opciones.
Proof.
  intros Hne. unfold selectbox.
  destruct (nth_error opciones i) as [s|] eqn:E.
  - exists s. split; [reflexivity|]. eapply nth_error_In, E.
  - destruct opciones as [|s l]; [contradiction|].
    exists s. split; [reflexivity | now left].
Qed.

Lemma iloc0_filter (p : Fila -> bool) (d : DataFrame) :
  iloc0 (filter p d)
  = match find p d with
    | Some f => Valor f
    | None => Lanza IndexError
    end.
Proof.
  induction d as [|f d IH]; simpl; [reflexivity|].
  destruct (p f); [reflexivity | exact IH].
Qed.

Lemma find_existe (p : Fila -> bool) (d : DataFrame) (f : Fila) :
  In f d -> p f = true -> exists g, find p d = Some g.
Proof.
  intros Hin Hp. destruct (find p d) as [g|] eqn:E; [now exists g|].
  rewrite (find_none _ _ E f Hin) in Hp. discriminate.
Qed.

(** With several rows the selectbox is shown and the first row of the
    chosen name is used. *)
Lemma fila_varias (od : DataFrame) (u : Usuario) :
  (1 < List.length od)%nat ->
  exists s f,
    selectbox (unique (columna (fun g => ruta (datos g)) od)) (elige_ruta u)
    = Some s /\
    fila od u
    = ([ sidebar_selectbox "Varias rutas disponibles:"
           (unique (columna (fun g => ruta (datos g)) od)) (Some s) ],
       Sigue f) /\
    find (fun g => ruta (datos g) =? s) od = Some f.
Proof.
  intros Hlen.
  assert (Hne : unique (columna (fun g => ruta (datos g)) od) <> []).
  { destruct od as [|g od]; simpl in *; [lia | discriminate]. }
  destruct (selectbox_In _ (elige_ruta u) Hne) as (s & Hs & Hin).
  rewrite unique_In in Hin. unfold columna in Hin.
  apply in_map_iff in Hin. destruct Hin as (g & Hg & Hin).
  destruct (find_existe (fun g => ruta (datos g) =? s) od g Hin) as [f Hf].
  { now apply String.eqb_eq. }
  exists s, f. split; [exact Hs|]. split; [|exact Hf].
  unfold fila, st_sidebar_selectbox.
  apply Nat.ltb_lt in Hlen. rewrite Hlen, Hs.
  unfold bind, st, ret. cbv beta iota.
  unfold col_eq. rewrite seleccionar_map, iloc0_filter, Hf.
  reflexivity.
Qed.

(** On a non-empty frame the step yields a row of the frame and renders
    at most the selectbox. *)
Lemma fila_no_lanza (od : DataFrame) (u : Usuario) :
  od <> [] ->
  exists t f, fila od u = (t, Sigue f) /\ In f od /\
              Forall (fun e => es_contenido e = false) t.
Proof.
  intros Hne. destruct od as [|g [|h od]]; [contradiction | |].
  - exists [], g. repeat split; [now left | constructor].
  - destruct (fila_varias (g :: h :: od) u) as (s & f & _ & Hf & Hfind).
    { simpl. lia. }
    eexists _, f. split; [exact Hf|]. split.
    + apply find_some in Hfind. tauto.
    + repeat constructor.
Qed.

(** C8. A filtered frame of exactly one row yields that row with no
    further selectbox. A frame of more than one row shows the selectbox
    of its distinct route names, and the row used is the first row of
    the frame carrying the chosen name; the step does not raise. *)
Theorem fila_resuelta :
  (forall f u, fila [f] u = ([], Sigue f)) /\
  (forall od u, (1 < List.length od)%nat ->
     exists s f,
       selectbox (unique (columna (fun g => ruta (datos g)) od)) (elige_ruta u)
       = Some s /\
       fila od u
       = ([ sidebar_selectbox "Varias rutas disponibles:"
              (unique (columna (fun g => ruta (datos g)) od)) (Some s) ],
          Sigue f) /\
       find (fun g => ruta (datos g) =? s) od = Some f).
Proof.
  split; [reflexivity | exact fila_varias].
Qed.

Lemma fila_resuelta_witness :
  exists s f,
    selectbox (unique (columna (fun g => ruta (datos g))
                 (rutas_od (df archivo_ejemplo) (Some "A") (Some "B")))) 1
    = Some s /\
    fila (rutas_od (df archivo_ejemplo) (Some "A") (Some "B"))
         {| elige_origen := 0; elige_destino := 0; elige_ruta := 1 |}
    = ([ sidebar_selectbox "Varias rutas disponibles:"
           (unique (columna (fun g => ruta (datos g))
              (rutas_od (df archivo_ejemplo) (Some "A") (Some "B")))) (Some s) ],
       Sigue f) /\
    find (fun g => ruta (datos g) =? s)
         (rutas_od (df archivo_ejemplo) (Some "A") (Some "B")) = Some f.
Proof.
  apply (proj2 fila_resuelta
           (rutas_od (df archivo_ejemplo) (Some "A") (Some "B"))
           {| elige_origen := 0; elige_destino := 0; elige_ruta := 1 |}).
  simpl. lia.
Defined.

(** ** Halting *)

(** The page is its heading followed by the stage below the selectboxes. *)
Lemma pagina_pasos (archivo : list Registro) (u : Usuario)
    (requests_get : Solicitud -> Respuesta) :
  pagina archivo u requests_get
  = (encabezado archivo u
       ++ fst (desde_filtro (df archivo) (origen_de archivo u)
                 (destino_de archivo u) u requests_get),
     snd (desde_filtro (df archivo) (origen_de archivo u)
            (destino_de archivo u) u requests_get)).
Proof.
  unfold pagina, st_sidebar_selectbox, st, ret, bind.
  cbv beta iota zeta. fold (origen_de archivo u) (destino_de archivo u).
  destruct (desde_filtro (df archivo) (origen_de archivo u)
              (destino_de archivo u) u requests_get) as [t r].
  reflexivity.
Qed.

Lemma Forall_encabezado (archivo : list Registro) (u : Usuario) :
  Forall (fun e => es_contenido e = false) (encabezado archivo u).
Proof. repeat constructor. Qed.

(** C7. When no row matches the selection the page shows the error
    message and is halted right there: the run consists of the heading,
    the two selectboxes and the message, and renders no indicator,
    table, chart, map or animation frame. *)
Theorem sin_rutas_detiene (archivo : list Registro) (u : Usuario)
    (requests_get : Solicitud -> Respuesta) :
  rutas_od (df archivo) (origen_de archivo u) (destino_de archivo u) = [] ->
  pagina archivo u requests_get
  = (encabezado archivo u
       ++ [error "No existen rutas entre este origen y destino."],
     Detenido) /\
  Forall (fun e => es_contenido e = false) (fst (pagina archivo u requests_get)).
Proof.
  intros H.
  assert (E : pagina archivo u requests_get
              = (encabezado archivo u
                   ++ [error "No existen rutas entre este origen y destino."],
                 Detenido)).
  { rewrite pagina_pasos. unfold desde_filtro. rewrite H. reflexivity. }
  split; [exact E|]. rewrite E. repeat constructor.
Qed.

Lemma sin_rutas_detiene_witness :
  pagina archivo_ejemplo usuario_B_B (fun _ => respuesta_ejemplo)
  = (encabezado archivo_ejemplo usuario_B_B
       ++ [error "No existen rutas entre este origen y destino."],
     Detenido) /\
  Forall (fun e => es_contenido e = false)
    (fst (pagina archivo_ejemplo usuario_B_B (fun _ => respuesta_ejemplo))).
Proof.
  apply (sin_rutas_detiene archivo_ejemplo usuario_B_B (fun _ => respuesta_ejemplo)).
  reflexivity.
Defined.

(** A fetch that returns no point ends the page at the second halt. *)
Lemma desde_ruta_real_vacia (d od : DataFrame) (origen destino : option string)
    (requests_get : Solicitud -> Respuesta) (f : Fila) (m : option Q) :
  obtener_ruta_osrm requests_get
    (lat_inicio (datos f)) (lon_inicio (datos f))
    (lat_fin (datos f)) (lon_fin (datos f)) = Valor ([], m) ->
  desde_ruta_real d od origen destino requests_get f
  = ([error "Error al obtener ruta desde OSRM."], Detenido).
Proof.
  intros H. unfold desde_ruta_real. rewrite H. reflexivity.
Qed.

Lemma desde_filtro_ruta_vacia (d : DataFrame) (origen destino : option string)
    (u : Usuario) (requests_get : Solicitud -> Respuesta) :
  (forall la1 lo1 la2 lo2, exists m,
      obtener_ruta_osrm requests_get la1 lo1 la2 lo2 = Valor ([], m)) ->
  rutas_od d origen destino <> [] ->
  desde_filtro d origen destino u requests_get
  = (fst (fila (rutas_od d origen destino) u)
       ++ [error "Error al obtener ruta desde OSRM."], Detenido).
Proof.
  intros Hv Hne. unfold desde_filtro. cbv zeta.
  destruct (fila_no_lanza _ u Hne) as (t & f & Hf & _ & _).
  rewrite Hf.
  destruct (Hv (lat_inicio (datos f)) (lon_inicio (datos f))
               (lat_fin (datos f)) (lon_fin (datos f))) as [m Hm].
  unfold exigir_rutas.
  destruct (rutas_od d origen destino) as [|g od] eqn:E; [contradiction|].
  simpl empty. cbv iota. unfold ret at 1. unfold bind at 1 2.
  rewrite (desde_ruta_real_vacia _ _ _ _ _ _ _ Hm). reflexivity.
Qed.

(** C10. Let the service answer 200 with a body of the expected shape
    whose first route has no point, and let some rows match the
    selection. Then the fetcher returns the empty route together with a
    duration, and the page runs exactly as with a failing service: after
    the heading and the row choice it shows the fetch error and is
    halted, with no indicator, table, chart, map or animation frame. *)
Theorem ruta_vacia_como_fallo (archivo : list Registro) (u : Usuario)
    (requests_get requests_fallo : Solicitud -> Respuesta) :
  (forall s, status_code (requests_get s) = 200%Z /\
             exists data segundos,
               r_json (requests_get s) = Valor data /\
               forma_esperada data [] segundos) ->
  (forall s, status_code (requests_fallo s) <> 200%Z) ->
  rutas_od (df archivo) (origen_de archivo u) (destino_de archivo u) <> [] ->
  (forall lat1 lon1 lat2 lon2, exists minutos,
      obtener_ruta_osrm requests_get lat1 lon1 lat2 lon2
      = Valor ([], Some minutos)) /\
  pagina archivo u requests_get
  = (encabezado archivo u
       ++ fst (fila (rutas_od (df archivo) (origen_de archivo u)
                       (destino_de archivo u)) u)
       ++ [error "Error al obtener ruta desde OSRM."],
     Detenido) /\
  pagina archivo u requests_get = pagina archivo u requests_fallo /\
  Forall (fun e => es_contenido e = false) (fst (pagina archivo u requests_get)).
Proof.
  intros Hok Hfallo Hne.
  assert (Hv : forall lat1 lon1 lat2 lon2, exists minutos,
             obtener_ruta_osrm requests_get lat1 lon1 lat2 lon2
             = Valor ([], Some minutos)).
  { intros la1 lo1 la2 lo2.
    destruct (Hok (url la1 lo1 la2 lo2)) as (Hs & data & seg & Hj & Hf).
    exists (seg / 60)%Q.
    exact (obtener_forma requests_get la1 lo1 la2 lo2 data [] seg Hs Hj Hf). }
  assert (Hv' : forall lat1 lon1 lat2 lon2, exists m,
             obtener_ruta_osrm requests_get lat1 lon1 lat2 lon2
             = Valor ([], m)).
  { intros la1 lo1 la2 lo2. destruct (Hv la1 lo1 la2 lo2) as [m Hm].
    now exists (Some m). }
  assert (Hw : forall lat1 lon1 lat2 lon2, exists m,
             obtener_ruta_osrm requests_fallo lat1 lon1 lat2 lon2
             = Valor ([], m)).
  { intros la1 lo1 la2 lo2. exists None.
    apply obtener_ruta_osrm_estado. apply Hfallo. }
  assert (E : pagina archivo u requests_get
              = (encabezado archivo u
                   ++ fst (fila (rutas_od (df archivo) (origen_de archivo u)
                                   (destino_de archivo u)) u)
                   ++ [error "Error al obtener ruta desde OSRM."],
                 Detenido)).
  { rewrite pagina_pasos, (desde_filtro_ruta_vacia _ _ _ _ _ Hv' Hne).
    reflexivity. }
  split; [exact Hv|]. split; [exact E|]. split.
  - rewrite E, pagina_pasos, (desde_filtro_ruta_vacia _ _ _ _ _ Hw Hne).
    reflexivity.
  - rewrite E. cbn [fst].
    destruct (fila_no_lanza _ u Hne) as (t & f & Hf & _ & Ht).
    rewrite Hf. cbn [fst].
    apply Forall_app. split; [apply Forall_encabezado|].
    apply Forall_app. split; [exact Ht | repeat constructor].
Qed.

Lemma ruta_vacia_como_fallo_witness :
  (forall lat1 lon1 lat2 lon2, exists minutos,
      obtener_ruta_osrm (fun _ => respuesta_sin_puntos) lat1 lon1 lat2 lon2
      = Valor ([], Some minutos)) /\
  pagina archivo_ejemplo usuario_A_B (fun _ => respuesta_sin_puntos)
  = (encabezado archivo_ejemplo usuario_A_B
       ++ fst (fila (rutas_od (df archivo_ejemplo)
                       (origen_de archivo_ejemplo usuario_A_B)
                       (destino_de archivo_ejemplo usuario_A_B)) usuario_A_B)
       ++ [error "Error al obtener ruta desde OSRM."],
     Detenido) /\
  pagina archivo_ejemplo usuario_A_B (fun _ => respuesta_sin_puntos)
  = pagina archivo_ejemplo usuario_A_B (fun _ => respuesta_503) /\
  Forall (fun e => es_contenido e = false)
    (fst (pagina archivo_ejemplo usuario_A_B (fun _ => respuesta_sin_puntos))).
Proof.
  apply (ruta_vacia_como_fallo archivo_ejemplo usuario_A_B
           (fun _ => respuesta_sin_puntos) (fun _ => respuesta_503)).
  - intros s. split; [reflexivity|].
    eexists _, 0%Q. split; [reflexivity|].
    unfold forma_esperada. do 3 eexists. repeat split; reflexivity.
  - intros s. simpl. discriminate.
  - simpl. discriminate.
Defined.

(** ** The animation loop *)

Lemma iloc_uno {A} (l : list A) (i : nat) (p : A) :
  nth_error l i = Some p -> iloc l i (i + 1) = [p].
Proof.
  unfold iloc. replace (i + 1 - i)%nat with 1%nat by lia.
  revert i. induction l as [|x l IH]; intros [|i] H; simpl in *;
    try discriminate.
  - now injection H as ->.
  - now apply IH.
Qed.

Lemma cuadro_en (ruta_real : list Punto) (i : nat) (p : Punto) :
  nth_error ruta_real i = Some p ->
  cuadro ruta_real i
  = ([pydeck_chart (deck_de ruta_real i p); sleep 0.12], Sigue tt).
Proof.
  intros H. unfold cuadro. cbv zeta. rewrite (iloc_uno _ _ _ H).
  reflexivity.
Qed.

(** The loop over the indices of a suffix of the route. *)
Lemma para_sufijo (antes despues : list Punto) :
  para (seq (List.length antes) (List.length despues))
       (cuadro (antes ++ despues))
  = (flat_map (traza_de (antes ++ despues))
       (combine (seq (List.length antes) (List.length despues)) despues),
     Sigue tt).
Proof.
  revert antes. induction despues as [|p despues IH]; intros antes.
  - reflexivity.
  - simpl List.length. simpl seq. simpl para.
    rewrite (cuadro_en _ _ p).
    2:{ rewrite nth_error_app2, Nat.sub_diag; [reflexivity | lia]. }
    specialize (IH (antes ++ [p])).
    rewrite <- app_assoc, length_app, Nat.add_1_r in IH. simpl in IH.
    unfold bind. rewrite IH. reflexivity.
Qed.

Lemma simulacion_traza (ruta_real : list Punto) :
  simulacion ruta_real
  = (flat_map (traza_de ruta_real)
       (combine (seq 0 (List.length ruta_real)) ruta_real),
     Sigue tt).
Proof.
  exact (para_sufijo [] ruta_real).
Qed.

Lemma cuadros_traza (ruta_real : list Punto) (l : list (nat * Punto)) :
  cuadros (flat_map (traza_de ruta_real) l)
  = map (fun ip => deck_de ruta_real (fst ip) (snd ip)) l.
Proof.
  induction l as [|ip l IH]; simpl; [reflexivity | now rewrite IH].
Qed.




(** A whole run on the example: from A to B through R2, with the route
    of the spec's example, the page is rendered to the end and the
    animation has two frames. *)
Example pagina_ejemplo :
  let run := pagina archivo_ejemplo usuario_A_B (fun _ => respuesta_ejemplo) in
  snd run = Sigue tt /\
  List.length (cuadros (fst run)) = 2%nat /\
  List.length (filter es_contenido (fst run)) = 12%nat.
Proof. repeat split. Qed.

(** ** Efficiency colours *)

Lemma insertar_q_length (x : Q) (l : list Q) :
  List.length (insertar_q x l) = S (List.length l).
Proof.
  induction l as [|y l IH]; simpl; [reflexivity|].
  destruct (Qle_bool x y); simpl; [reflexivity | now rewrite IH].
Qed.

Lemma ordenar_length (l : list Q) :
  List.length (ordenar l) = List.length l.
Proof.
  induction l as [|x l IH]; simpl; [reflexivity|].
  now rewrite insertar_q_length, IH.
Qed.

Lemma insertar_q_HdRel (a x : Q) (l : list Q) :
  HdRel Qle a l -> (a <= x)%Q -> HdRel Qle a (insertar_q x l).
Proof.
  intros H Hax. destruct l as [|y l]; simpl.
  - now constructor.
  - destruct (Qle_bool x y); constructor; [exact Hax|].
    now inversion H.
Qed.

Lemma insertar_q_Sorted (x : Q) (l : list Q) :
  Sorted Qle l -> Sorted Qle (insertar_q x l).
Proof.
  induction l as [|y l IH]; simpl; intros H.
  - repeat constructor.
  - inversion H as [|? ? Hs Hh]; subst.
    destruct (Qle_bool x y) eqn:E.
    + constructor; [exact H|]. constructor. now apply Qle_bool_iff.
    + constructor; [now apply IH|].
      apply insertar_q_HdRel; [exact Hh|].
      apply Qlt_le_weak, Qle_bool_false, E.
Qed.

Lemma ordenar_Sorted (l : list Q) : StronglySorted Qle (ordenar l).
Proof.
  apply Sorted_StronglySorted.
  - intros x y z. apply Qle_trans.
  - induction l as [|x l IH]; simpl; [constructor|].
    now apply insertar_q_Sorted.
Qed.

(** In a sorted list a later position holds a value at least as large. *)
Lemma nth_creciente (a : list Q) (def : Q) (i j : nat) :
  StronglySorted Qle a -> (i <= j)%nat -> (j < List.length a)%nat ->
  (nth i a def <= nth j a def)%Q.
Proof.
  intros Hs. revert i j. induction Hs as [|x a Hs IH Hx]; intros i j Hij Hj.
  - simpl in Hj. lia.
  - destruct j as [|j].
    + replace i with 0%nat by lia. apply Qle_refl.
    + destruct i as [|i]; simpl in *.
      * rewrite Forall_forall in Hx. apply Hx, nth_In. lia.
      * apply IH; lia.
Qed.

Lemma interpolar_creciente (a : list Q) (a0 q1 q2 : Q) :
  StronglySorted Qle a -> a <> [] ->
  (0 <= q1)%Q -> (q1 <= q2)%Q -> (q2 <= 1)%Q ->
  (interpolar a a0 q1 <= interpolar a a0 q2)%Q.
Proof.
  intros Hs Hne H0 H12 H1. unfold interpolar.
  set (n := List.length a).
  assert (Hn : (1 <= n)%nat).
  { subst n. destruct a; [contradiction | simpl; lia]. }
  set (N := inject_Z (Z.of_nat n - 1)).
  assert (HN : (0 <= N)%Q).
  { subst N. change 0%Q with (inject_Z 0). rewrite <- Zle_Qle. lia. }
  set (p1 := (q1 * N)%Q). set (p2 := (q2 * N)%Q).
  assert (Hp1 : (0 <= p1)%Q) by (subst p1; nra).
  assert (Hp12 : (p1 <= p2)%Q) by (subst p1 p2; nra).
  assert (Hp2 : (p2 <= N)%Q) by (subst p2; nra).
  assert (F1 : (0 <= Qfloor p1)%Z).
  { change 0%Z with (Qfloor 0). now apply Qfloor_resp_le. }
  assert (F12 : (Qfloor p1 <= Qfloor p2)%Z) by now apply Qfloor_resp_le.
  assert (F2 : (Qfloor p2 <= Z.of_nat n - 1)%Z).
  { rewrite <- (Qfloor_Z (Z.of_nat n - 1)). now apply Qfloor_resp_le. }
  pose proof (Qfloor_le p1) as G1. pose proof (Qlt_floor p1) as G1'.
  pose proof (Qfloor_le p2) as G2. pose proof (Qlt_floor p2) as G2'.
  rewrite inject_Z_plus in G1', G2'. change (inject_Z 1) with 1%Q in G1', G2'.
  set (f1 := Qfloor p1) in *. set (f2 := Qfloor p2) in *.
  set (lo1 := Z.to_nat f1). set (lo2 := Z.to_nat f2).
  assert (L1 : (lo1 < n)%nat) by (subst lo1; lia).
  assert (L2 : (lo2 < n)%nat) by (subst lo2; lia).
  set (hi1 := Nat.min (lo1 + 1) (n - 1)). set (hi2 := Nat.min (lo2 + 1) (n - 1)).
  assert (X1 : (nth lo1 a a0 <= nth hi1 a a0)%Q)
    by (apply nth_creciente; [exact Hs | subst hi1; lia | subst hi1 n; lia]).
  assert (X2 : (nth lo2 a a0 <= nth hi2 a a0)%Q)
    by (apply nth_creciente; [exact Hs | subst hi2; lia | subst hi2 n; lia]).
  destruct (Z.eq_dec f1 f2) as [E|E].
  - assert (lo1 = lo2) as El by (subst lo1 lo2; congruence).
    subst hi1 hi2. rewrite <- El in *. rewrite <- E in *.
    set (x := nth lo1 a a0) in *. set (y := nth (Nat.min (lo1 + 1) (n - 1)) a a0) in *.
    nra.
  - assert (Hlt : (lo1 + 1 <= lo2)%nat) by (subst lo1 lo2; lia).
    assert (Y : (nth hi1 a a0 <= nth lo2 a a0)%Q)
      by (apply nth_creciente; [exact Hs | subst hi1; lia | exact L2]).
    set (x1 := nth lo1 a a0) in *. set (y1 := nth hi1 a a0) in *.
    set (x2 := nth lo2 a a0) in *. set (y2 := nth hi2 a a0) in *.
    nra.
Qed.

Lemma quantile_interpolar (valores : list Q) :
  valores <> [] ->
  exists a0, forall q,
    quantile valores q = Some (interpolar (ordenar valores) a0 q).
Proof.
  intros Hne. unfold quantile. cbv zeta.
  destruct (ordenar valores) as [|a0 a] eqn:E.
  - apply (f_equal (@List.length Q)) in E. rewrite ordenar_length in E.
    destruct valores; [contradiction | discriminate].
  - exists a0. reflexivity.
Qed.

Example quantile_ejemplo :
  quantile [3; 1; 2; 4]%Q 0.5 = Some (2 + (3 - 2) * (0.5 * 3 - 1))%Q.
Proof. reflexivity. Qed.

Lemma mayor_Some (v x : Q) : mayor v (Some x) = true <-> (x < v)%Q.
Proof.
  simpl. rewrite negb_true_iff. split.
  - apply Qle_bool_false.
  - intros H. destruct (Qle_bool v x) eqn:E; [|reflexivity].
    apply Qle_bool_iff in E. lra.
Qed.

Lemma mayor_Some_false (v x : Q) : mayor v (Some x) = false <-> (v <= x)%Q.
Proof.
  simpl. rewrite negb_false_iff. apply Qle_bool_iff.
Qed.

(** C5. On a non-empty table the two quantiles exist, the 33rd is not
    above the 66th, and a value gets the high colour exactly when it is
    strictly above the 66th percentile of the efficiency column, the
    low colour exactly when it is at or below the 33rd, and the medium
    colour exactly in between. *)
Theorem eficiencia_color_terciles (d : DataFrame) (v : Q) :
  d <> [] ->
  exists q33 q66,
    quantile (columna eficiencia d) 0.33 = Some q33 /\
    quantile (columna eficiencia d) 0.66 = Some q66 /\
    (q33 <= q66)%Q /\
    (eficiencia_color d v = "green" <-> (q66 < v)%Q) /\
    (eficiencia_color d v = "red" <-> (v <= q33)%Q) /\
    (eficiencia_color d v = "orange" <-> (q33 < v)%Q /\ (v <= q66)%Q).
Proof.
  intros Hne.
  assert (Hc : columna eficiencia d <> []).
  { destruct d; [contradiction | discriminate]. }
  destruct (quantile_interpolar _ Hc) as [a0 Eq].
  assert (Hle : (interpolar (ordenar (columna eficiencia d)) a0 0.33
                 <= interpolar (ordenar (columna eficiencia d)) a0 0.66)%Q).
  { apply interpolar_creciente; try lra.
    - apply ordenar_Sorted.
    - intros E. apply (f_equal (@List.length Q)) in E.
      rewrite ordenar_length in E. destruct (columna eficiencia d);
        [contradiction | discriminate]. }
  exists (interpolar (ordenar (columna eficiencia d)) a0 0.33),
         (interpolar (ordenar (columna eficiencia d)) a0 0.66).
  split; [apply Eq|]. split; [apply Eq|]. split; [exact Hle|].
  unfold eficiencia_color. rewrite !Eq.
  set (q33 := interpolar _ _ 0.33) in *. set (q66 := interpolar _ _ 0.66) in *.
  destruct (mayor v (Some q66)) eqn:M66.
  - apply mayor_Some in M66.
    repeat split; try discriminate; intros; try reflexivity; try lra.
  - apply mayor_Some_false in M66.
    destruct (mayor v (Some q33)) eqn:M33.
    + apply mayor_Some in M33.
      repeat split; try discriminate; intros; try reflexivity; try lra.
    + apply mayor_Some_false in M33.
      repeat split; try discriminate; intros; try reflexivity; try lra.
Qed.

Lemma eficiencia_color_terciles_witness :
  exists q33 q66,
    quantile (columna eficiencia (df archivo_ejemplo)) 0.33 = Some q33 /\
    quantile (columna eficiencia (df archivo_ejemplo)) 0.66 = Some q66 /\
    (q33 <= q66)%Q /\
    (eficiencia_color (df archivo_ejemplo) 4 = "green" <-> (q66 < 4)%Q) /\
    (eficiencia_color (df archivo_ejemplo) 4 = "red" <-> (4 <= q33)%Q) /\
    (eficiencia_color (df archivo_ejemplo) 4 = "orange" <->
     (q33 < 4)%Q /\ (4 <= q66)%Q).
Proof.
  apply (eficiencia_color_terciles (df archivo_ejemplo) 4%Q).
  simpl. discriminate.
Defined.

(** On the example the efficiencies are 2.5, 4, 8 and 2, the 33rd
    percentile is 2.495 and the 66th is 3.97. *)
Example eficiencia_color_ejemplo :
  map (fun l => (tooltip l, color l)) (lineas (minimapa (df archivo_ejemplo)))
  = [("R1", "orange"); ("R2", "green"); ("R3", "green"); ("R4", "red")].
Proof. reflexivity. Qed.

(** ** More on the route fetcher *)

Lemma extraer_campos (r : Respuesta) (data coords segundos : json) :
  r_json r = Valor data ->
  campos_presentes data coords segundos ->
  extraer r = (duracion <- truediv segundos 60 ;; Valor (coords, duracion)).
Proof.
  intros Hj (rutas & primera & geometria & Hr & Hp & Hg & Hc & Hd).
  unfold extraer. rewrite Hj. simpl.
  rewrite (campo_getitem _ _ _ Hr). simpl.
  rewrite (elemento_getitem _ _ _ Hp). simpl.
  rewrite (campo_getitem _ _ _ Hg). simpl.
  rewrite (campo_getitem _ _ _ Hc). simpl.
  rewrite (campo_getitem _ _ _ Hd). reflexivity.
Qed.

Lemma py_map_length {A B} (f : A -> py B) (l : list A) (l' : list B) :
  py_map f l = Valor l' -> List.length l' = List.length l.
Proof.
  revert l'. induction l as [|x l IH]; simpl; intros l' H.
  - now injection H as <-.
  - destruct (f x) as [y|e]; simpl in H; [|discriminate].
    destruct (py_map f l) as [ys|e]; simpl in H; [|discriminate].
    injection H as <-. simpl. now rewrite (IH ys eq_refl).
Qed.

Section FetcherMas.

Variable requests_get : Solicitud -> Respuesta.
Variables lat1 lon1 lat2 lon2 : Q.

Let r := requests_get (url lat1 lon1 lat2 lon2).

(** X1. Whatever is returned is either the failure pair or a route with
    its duration: no route comes without a duration, and the route has
    one row per entry of the coordinate list. *)
Theorem obtener_ruta_osrm_retorno (ruta : list Punto) (d : option Q) :
  obtener_ruta_osrm requests_get lat1 lon1 lat2 lon2 = Valor (ruta, d) ->
  (ruta = [] /\ d = None) \/
  (exists coords cs minutos,
      status_code r = 200%Z /\
      extraer r = Valor (coords, minutos) /\
      iter coords = Valor cs /\
      List.length ruta = List.length cs /\
      d = Some minutos).
Proof.
  unfold obtener_ruta_osrm. fold r.
  destruct (Z.eqb_spec (status_code r) 200) as [Hs|Hs]; simpl.
  - destruct (extraer r) as [[coords m]|e] eqn:E.
    + destruct (iter coords) as [cs|e] eqn:I; simpl; [|discriminate].
      destruct (py_map punto_de cs) as [ps|e] eqn:P; simpl; [|discriminate].
      intros H. injection H as <- <-. right.
      exists coords, cs, m. repeat split; try assumption.
      now apply py_map_length in P.
    + intros H. injection H as <- <-. now left.
  - intros H. injection H as <- <-. now left.
Qed.

Lemma punto_de_excepcion (c : json) (e : excepcion) :
  punto_de c = Lanza e -> e = TypeError \/ e = IndexError \/ e = KeyError.
Proof.
  unfold punto_de, getitem_int, py_bind.
  destruct c as [| b | q | s | l | l];
    try (intros H; injection H as <-; tauto).
  - destruct (String.get 1 s); [destruct (String.get 0 s)|];
      intros H; try discriminate; injection H as <-; tauto.
  - destruct (nth_error l 1); [destruct (nth_error l 0)|];
      intros H; try discriminate; injection H as <-; tauto.
Qed.

Lemma py_map_punto_excepcion (cs : list json) (e : excepcion) :
  py_map punto_de cs = Lanza e ->
  e = TypeError \/ e = IndexError \/ e = KeyError.
Proof.
  induction cs as [|c cs IH]; simpl; [discriminate|].
  destruct (punto_de c) as [p|e'] eqn:P; simpl.
  - destruct (py_map punto_de cs) as [ps|e'']; simpl; [discriminate|].
    intros H. injection H as ->. now apply IH.
  - intros H. injection H as ->. now apply (punto_de_excepcion c).
Qed.

Lemma iter_excepcion (coords : json) (e : excepcion) :
  iter coords = Lanza e -> e = TypeError.
Proof.
  destruct coords; simpl; intros H; try discriminate;
    now injection H as <-.
Qed.

(** Once the service has answered, the fetcher raises only while it
    builds the rows: the status was 200, the [try] block found
    coordinates and a duration, and the exception is a TypeError, an
    IndexError or a KeyError. *)
Lemma obtener_ruta_osrm_lanza (e : excepcion) :
  obtener_ruta_osrm requests_get lat1 lon1 lat2 lon2 = Lanza e ->
  status_code r = 200%Z /\
  (exists coords minutos, extraer r = Valor (coords, minutos)) /\
  (e = TypeError \/ e = IndexError \/ e = KeyError).
Proof.
  unfold obtener_ruta_osrm. fold r.
  destruct (Z.eqb_spec (status_code r) 200) as [Hs|Hs]; simpl;
    [|discriminate].
  destruct (extraer r) as [[coords m]|e'] eqn:E; [|discriminate].
  intros H. split; [exact Hs|]. split; [now exists coords, m|].
  destruct (iter coords) as [cs|e'] eqn:I; simpl in H.
  - destruct (py_map punto_de cs) as [ps|e'] eqn:P; simpl in H;
      [discriminate|].
    injection H as ->. now apply (py_map_punto_excepcion cs).
  - injection H as ->. left. now apply (iter_excepcion coords).
Qed.

(** X3. A point with fewer than two entries, after any number of well
    formed points, makes the fetcher raise IndexError. *)
Theorem obtener_ruta_osrm_punto_incompleto
    (data segundos : json) (pts : list (Q * Q)) (corto resto : list json) :
  status_code r = 200%Z ->
  r_json r = Valor data ->
  campos_presentes data
    (JArr (map punto_geojson pts ++ JArr corto :: resto)) segundos ->
  es_numero segundos = true ->
  (List.length corto < 2)%nat ->
  obtener_ruta_osrm requests_get lat1 lon1 lat2 lon2 = Lanza IndexError.
Proof.
  intros Hs Hj Hc Hn Hl. unfold obtener_ruta_osrm. fold r.
  rewrite Hs. simpl. rewrite (extraer_campos r _ _ _ Hj Hc).
  assert (P : py_map punto_de (map punto_geojson pts ++ JArr corto :: resto)
              = Lanza IndexError).
  { clear - Hl. induction pts as [|p pts IH]; simpl.
    - destruct corto as [|x [|y corto]];
        [reflexivity | reflexivity | simpl in Hl; lia].
    - rewrite IH. reflexivity. }
  destruct segundos; simpl in Hn; try discriminate; simpl; now rewrite P.
Qed.

(** X4. With every field present but a duration that is not a number, the
    division raises inside the [try] block and the fetch counts as
    failed, whatever the coordinates are. *)
Theorem obtener_ruta_osrm_duracion_no_numerica (data coords segundos : json) :
  status_code r = 200%Z ->
  r_json r = Valor data ->
  campos_presentes data coords segundos ->
  es_numero segundos = false ->
  obtener_ruta_osrm requests_get lat1 lon1 lat2 lon2 = Valor ([], None).
Proof.
  intros Hs Hj Hc Hn. unfold obtener_ruta_osrm. fold r.
  rewrite Hs. simpl. rewrite (extraer_campos r _ _ _ Hj Hc).
  destruct segundos; simpl in Hn; try discriminate; reflexivity.
Qed.

End FetcherMas.

(** X2. With a network that may fail, the fetcher raises in two places
    only: at [requests.get], whose exception it lets through, being
    outside the [try] block; or, the service having answered 200 and
    the [try] block having found coordinates and a duration, while it
    builds the rows, and then with a TypeError, an IndexError or a
    KeyError. *)
Theorem obtener_ruta_osrm_red_lanza (requests_get : Solicitud -> py Respuesta)
    (lat1 lon1 lat2 lon2 : Q) (e : excepcion) :
  obtener_ruta_osrm_red requests_get lat1 lon1 lat2 lon2 = Lanza e ->
  requests_get (url lat1 lon1 lat2 lon2) = Lanza e \/
  (exists r,
      requests_get (url lat1 lon1 lat2 lon2) = Valor r /\
      status_code r = 200%Z /\
      (exists coords minutos, extraer r = Valor (coords, minutos)) /\
      (e = TypeError \/ e = IndexError \/ e = KeyError)).
Proof.
  unfold obtener_ruta_osrm_red.
  destruct (requests_get (url lat1 lon1 lat2 lon2)) as [r|e'] eqn:R; simpl.
  - intros H. right. exists r. split; [reflexivity|].
    exact (obtener_ruta_osrm_lanza (fun _ => r) lat1 lon1 lat2 lon2 e H).
  - intros H. left. injection H as ->. reflexivity.
Qed.

(** On a network that answers, the two fetchers are one. *)
Lemma obtener_ruta_osrm_red_responde (rg : Solicitud -> Respuesta)
    (lat1 lon1 lat2 lon2 : Q) :
  obtener_ruta_osrm_red (fun s => Valor (rg s)) lat1 lon1 lat2 lon2
  = obtener_ruta_osrm rg lat1 lon1 lat2 lon2.
Proof. reflexivity. Qed.


Lemma duracion_de_ruta (requests_get : Solicitud -> Respuesta)
    (lat1 lon1 lat2 lon2 : Q) (ruta : list Punto) (d : option Q) :
  obtener_ruta_osrm requests_get lat1 lon1 lat2 lon2 = Valor (ruta, d) ->
  ruta <> [] -> exists m, d = Some m.
Proof.
  unfold obtener_ruta_osrm.
  destruct (negb _); [intros H; injection H as <- <-; contradiction|].
  destruct (extraer _) as [[coords m]|e'];
    [|intros H; injection H as <- <-; contradiction].
  destruct (cs <- iter coords ;; py_map punto_de cs) as [ps|e'];
    simpl; [|discriminate].
  intros H _. injection H as <- <-. now exists m.
Qed.

Lemma obtener_ext (rg rg' : Solicitud -> Respuesta) (lat1 lon1 lat2 lon2 : Q) :
  rg (url lat1 lon1 lat2 lon2) = rg' (url lat1 lon1 lat2 lon2) ->
  obtener_ruta_osrm rg lat1 lon1 lat2 lon2
  = obtener_ruta_osrm rg' lat1 lon1 lat2 lon2.
Proof.
  intros H. unfold obtener_ruta_osrm. now rewrite H.
Qed.

(** ** The page as a whole *)

Lemma fila_traza (od : DataFrame) (u : Usuario) :
  od <> [] ->
  exists t f, fila od u = (t, Sigue f) /\ In f od /\
              Forall (fun e => es_marco e = true) t.
Proof.
  intros Hne. destruct od as [|g [|h od]]; [contradiction | |].
  - exists [], g. repeat split; [now left | constructor].
  - destruct (fila_varias (g :: h :: od) u) as (s & f & _ & Hf & Hfind).
    { simpl. lia. }
    eexists _, f. split; [exact Hf|]. split.
    + apply find_some in Hfind. tauto.
    + repeat constructor.
Qed.

Lemma fila_exito (od : DataFrame) (u : Usuario) (t : list evento) (f : Fila) :
  fila od u = (t, Sigue f) -> od <> [].
Proof.
  intros H ->. discriminate H.
Qed.

Lemma indicadores_traza (od : DataFrame) (m : Q) :
  od <> [] -> NoDup (map etiqueta od) ->
  exists ind,
    indicadores od (Some m) = (ind, Sigue tt) /\
    Forall (fun e => es_error e = false) ind /\
    cuadros ind = [] /\
    List.length (filter es_contenido ind) = 4%nat.
Proof.
  intros Hne Hnd.
  destruct (idxmin_loc distancia od Hne Hnd) as (corta & Ec & _).
  destruct (idxmax_loc frecuencia od Hne Hnd) as (freq & Ef & _).
  destruct (idxmax_loc eficiencia od Hne Hnd) as (eff & Ee & _).
  unfold indicadores, ruta_corta, ruta_freq, ruta_eff.
  rewrite Ec, Ef, Ee. eexists. split; [reflexivity|].
  split; [repeat constructor | split; reflexivity].
Qed.

Lemma traza_animacion_sin_error (ruta_real : list Punto) (l : list (nat * Punto)) :
  Forall (fun e => es_error e = false) (flat_map (traza_de ruta_real) l).
Proof.
  induction l as [|ip l IH]; simpl; repeat constructor. exact IH.
Qed.

(** The stage below the row choice when the fetch gives a route. *)
Lemma desde_ruta_real_con_ruta (d od : DataFrame) (origen destino : option string)
    (requests_get : Solicitud -> Respuesta) (f : Fila)
    (ruta : list Punto) (m : Q) (ind : list evento) :
  obtener_ruta_osrm requests_get
    (lat_inicio (datos f)) (lon_inicio (datos f))
    (lat_fin (datos f)) (lon_fin (datos f)) = Valor (ruta, Some m) ->
  ruta <> [] ->
  indicadores od (Some m) = (ind, Sigue tt) ->
  desde_ruta_real d od origen destino requests_get f
  = (ind ++ traza_tabla_mapas d od origen destino
         ++ flat_map (traza_de ruta) (combine (seq 0 (List.length ruta)) ruta),
     Sigue tt).
Proof.
  intros Ho Hne Hi. unfold desde_ruta_real. rewrite Ho.
  unfold evaluar, ret. unfold bind at 1. cbn [fst snd app].
  unfold exigir_ruta_real. destruct ruta as [|p ps]; [contradiction|].
  cbn [empty]. unfold ret. unfold bind at 1. rewrite Hi.
  unfold bind at 1. rewrite simulacion_traza.
  reflexivity.
Qed.

Lemma desde_filtro_con_fila (d : DataFrame) (origen destino : option string)
    (u : Usuario) (requests_get : Solicitud -> Respuesta)
    (t : list evento) (f : Fila) :
  fila (rutas_od d origen destino) u = (t, Sigue f) ->
  desde_filtro d origen destino u requests_get
  = (t ++ fst (desde_ruta_real d (rutas_od d origen destino) origen destino
                 requests_get f),
     snd (desde_ruta_real d (rutas_od d origen destino) origen destino
            requests_get f)).
Proof.
  intros Hf. pose proof (fila_exito _ _ _ _ Hf) as Hne.
  unfold desde_filtro. cbv zeta. rewrite Hf. unfold exigir_rutas.
  destruct (rutas_od d origen destino) as [|g od]; [contradiction|].
  cbn [empty]. unfold ret, bind.
  destruct (desde_ruta_real d (g :: od) origen destino requests_get f)
    as [t' r']. reflexivity.
Qed.

Lemma cuadros_app (t1 t2 : list evento) :
  cuadros (t1 ++ t2) = cuadros t1 ++ cuadros t2.
Proof. apply flat_map_app. Qed.

Lemma cuadros_marco (t : list evento) :
  Forall (fun e => es_marco e = true) t -> cuadros t = [].
Proof.
  induction 1 as [|e t He _ IH]; [reflexivity|].
  unfold cuadros in *. simpl. rewrite IH.
  destruct e; try reflexivity. discriminate He.
Qed.

Lemma marco_sin_error (t : list evento) :
  Forall (fun e => es_marco e = true) t ->
  Forall (fun e => es_error e = false) t.
Proof.
  apply Forall_impl. intros e H. unfold es_marco in H.
  apply andb_true_iff in H. destruct H as [_ H].
  now apply negb_true_iff in H.
Qed.

Lemma marco_sin_contenido (t : list evento) :
  Forall (fun e => es_marco e = true) t ->
  Forall (fun e => es_contenido e = false) t.
Proof.
  apply Forall_impl. intros e H. unfold es_marco in H.
  apply andb_true_iff in H. destruct H as [H _].
  now apply negb_true_iff in H.
Qed.

Lemma encabezado_marco (archivo : list Registro) (u : Usuario) :
  Forall (fun e => es_marco e = true) (encabezado archivo u).
Proof. repeat constructor. Qed.

Section Pagina.

Variable archivo : list Registro.
Variable u : Usuario.

Let d := df archivo.
Let origen := origen_de archivo u.
Let destino := destino_de archivo u.
Let od := rutas_od d origen destino.

Lemma pagina_con_ruta (requests_get : Solicitud -> Respuesta)
    (t ind : list evento) (f : Fila) (ruta : list Punto) (m : Q) :
  fila od u = (t, Sigue f) ->
  obtener_ruta_osrm requests_get
    (lat_inicio (datos f)) (lon_inicio (datos f))
    (lat_fin (datos f)) (lon_fin (datos f)) = Valor (ruta, Some m) ->
  ruta <> [] ->
  indicadores od (Some m) = (ind, Sigue tt) ->
  pagina archivo u requests_get
  = (encabezado archivo u ++ t ++ ind
       ++ traza_tabla_mapas d od origen destino
       ++ flat_map (traza_de ruta) (combine (seq 0 (List.length ruta)) ruta),
     Sigue tt).
Proof.
  intros Hf Ho Hne Hi.
  rewrite pagina_pasos. fold d origen destino.
  rewrite (desde_filtro_con_fila d origen destino u requests_get t f Hf).
  fold od.
  rewrite (desde_ruta_real_con_ruta d od origen destino requests_get f
             ruta m ind Ho Hne Hi).
  reflexivity.
Qed.

Lemma pagina_con_excepcion (requests_get : Solicitud -> Respuesta)
    (t : list evento) (f : Fila) (e : excepcion) :
  fila od u = (t, Sigue f) ->
  obtener_ruta_osrm requests_get
    (lat_inicio (datos f)) (lon_inicio (datos f))
    (lat_fin (datos f)) (lon_fin (datos f)) = Lanza e ->
  pagina archivo u requests_get = (encabezado archivo u ++ t, Excepcion e).
Proof.
  intros Hf Ho.
  rewrite pagina_pasos. fold d origen destino.
  rewrite (desde_filtro_con_fila d origen destino u requests_get t f Hf).
  fold od. unfold desde_ruta_real. rewrite Ho.
  cbn [evaluar bind fst snd]. now rewrite app_nil_r.
Qed.

Lemma traza_completa_sin_error (t ind : list evento) (ruta : list Punto) :
  Forall (fun e => es_marco e = true) t ->
  Forall (fun e => es_error e = false) ind ->
  Forall (fun e => es_error e = false)
    (encabezado archivo u ++ t ++ ind
       ++ traza_tabla_mapas d od origen destino
       ++ flat_map (traza_de ruta) (combine (seq 0 (List.length ruta)) ruta)).
Proof.
  intros Ht Hie.
  apply Forall_app. split; [apply marco_sin_error, encabezado_marco|].
  apply Forall_app. split; [now apply marco_sin_error|].
  apply Forall_app. split; [exact Hie|].
  apply Forall_app. split; [repeat constructor|].
  apply traza_animacion_sin_error.
Qed.

(** X6. A run that reaches the end. On a file with no zero distance (so
    that the efficiencies are the finite quotients the program
    computes), with a row chosen and an answer of the service that
    gives a route of at least one point, the page shows, in this
    order, the heading, the row choice, the four indicators, the table
    of the filtered rows, the chart and the overview map of the whole
    table, and one animation frame per point; it shows no error
    message. *)
Theorem pagina_completa (requests_get : Solicitud -> Respuesta)
    (t : list evento) (f : Fila) (ruta : list Punto) (dur : option Q) :
  (forall reg, In reg archivo -> ~ (distancia_km reg == 0)%Q) ->
  fila od u = (t, Sigue f) ->
  obtener_ruta_osrm requests_get
    (lat_inicio (datos f)) (lon_inicio (datos f))
    (lat_fin (datos f)) (lon_fin (datos f)) = Valor (ruta, dur) ->
  ruta <> [] ->
  exists m ind,
    dur = Some m /\
    indicadores od (Some m) = (ind, Sigue tt) /\
    pagina archivo u requests_get
    = (encabezado archivo u ++ t ++ ind
         ++ traza_tabla_mapas d od origen destino
         ++ flat_map (traza_de ruta) (combine (seq 0 (List.length ruta)) ruta),
       Sigue tt) /\
    List.length (cuadros (fst (pagina archivo u requests_get)))
    = List.length ruta /\
    Forall (fun e => es_error e = false)
      (fst (pagina archivo u requests_get)).
Proof.
  intros _ Hf Ho Hne.
  pose proof (fila_exito _ _ _ _ Hf) as Hod.
  destruct (duracion_de_ruta _ _ _ _ _ _ _ Ho Hne) as [m ->].
  assert (Hnd : NoDup (map etiqueta od))
    by apply rutas_od_NoDup, df_NoDup.
  destruct (indicadores_traza od m Hod Hnd) as (ind & Hi & Hie & Hic & _).
  destruct (fila_traza od u Hod) as (t' & f' & Hf' & _ & Ht).
  rewrite Hf in Hf'. injection Hf' as <- <-.
  pose proof (pagina_con_ruta requests_get t ind f ruta m Hf Ho Hne Hi) as E.
  exists m, ind. split; [reflexivity|]. split; [exact Hi|].
  split; [exact E|]. rewrite E. cbn [fst]. split.
  - rewrite !cuadros_app, (cuadros_marco _ (encabezado_marco archivo u)),
      (cuadros_marco _ Ht), Hic, cuadros_traza.
    cbn [app cuadros flat_map traza_tabla_mapas].
    rewrite length_map, length_combine, length_seq. apply Nat.min_id.
  - now apply traza_completa_sin_error.
Qed.

(** X7. An exception of the fetcher ends the run where it is raised: the
    page has shown the heading and the row choice only, no error
    message and no content. *)
Theorem pagina_excepcion (requests_get : Solicitud -> Respuesta)
    (t : list evento) (f : Fila) (e : excepcion) :
  fila od u = (t, Sigue f) ->
  obtener_ruta_osrm requests_get
    (lat_inicio (datos f)) (lon_inicio (datos f))
    (lat_fin (datos f)) (lon_fin (datos f)) = Lanza e ->
  pagina archivo u requests_get = (encabezado archivo u ++ t, Excepcion e) /\
  Forall (fun ev => es_marco ev = true) (fst (pagina archivo u requests_get)).
Proof.
  intros Hf Ho.
  pose proof (fila_exito _ _ _ _ Hf) as Hod.
  destruct (fila_traza od u Hod) as (t' & f' & Hf' & _ & Ht).
  rewrite Hf in Hf'. injection Hf' as <- <-.
  pose proof (pagina_con_excepcion requests_get t f e Hf Ho) as E.
  split; [exact E|]. rewrite E. cbn [fst].
  apply Forall_app. split; [apply encabezado_marco | exact Ht].
Qed.

(** X8. The service is asked about rows that match the selection and about
    nothing else: two services that answer alike on the requests for
    such rows give the same page. *)
Theorem pagina_una_solicitud (rg rg' : Solicitud -> Respuesta) :
  (forall f, In f d -> coincide origen destino f ->
     rg (url (lat_inicio (datos f)) (lon_inicio (datos f))
             (lat_fin (datos f)) (lon_fin (datos f)))
     = rg' (url (lat_inicio (datos f)) (lon_inicio (datos f))
                (lat_fin (datos f)) (lon_fin (datos f)))) ->
  pagina archivo u rg = pagina archivo u rg'.
Proof.
  intros H. rewrite !pagina_pasos. fold d origen destino.
  destruct od as [|g l] eqn:E.
  - unfold desde_filtro. fold od. rewrite E. reflexivity.
  - assert (Hod : od <> []) by (rewrite E; discriminate).
    destruct (fila_traza od u Hod) as (t & f & Hf & Hin & _).
    rewrite !(desde_filtro_con_fila d origen destino u _ t f Hf).
    unfold desde_ruta_real. fold od.
    rewrite (obtener_ext rg rg'); [reflexivity|].
    unfold od in Hin. rewrite rutas_od_filter in Hin.
    apply filter_In in Hin. destruct Hin as [Hin Hc].
    apply H; [exact Hin | now apply coincide_b_spec].
Qed.


End Pagina.

(** *** With a network that may fail *)



(** With an answering network the page is the page above. *)
Lemma pagina_red_responde (archivo : list Registro) (u : Usuario)
    (rg : Solicitud -> Respuesta) :
  pagina_red archivo u (fun s => Valor (rg s)) = pagina archivo u rg.
Proof. reflexivity. Qed.


(** ** The options of the selectboxes *)

Lemma ascii_compare_trans (a b c : ascii) :
  Ascii.compare a b = Lt -> Ascii.compare b c = Lt -> Ascii.compare a c = Lt.
Proof.
  unfold Ascii.compare. rewrite !N.compare_lt_iff. apply N.lt_trans.
Qed.

Lemma string_compare_refl (s : string) : String.compare s s = Eq.
Proof.
  induction s as [|c s IH]; simpl; [reflexivity|].
  unfold Ascii.compare. now rewrite N.compare_refl.
Qed.

Lemma string_lt_trans (s1 s2 s3 : string) :
  String.compare s1 s2 = Lt -> String.compare s2 s3 = Lt ->
  String.compare s1 s3 = Lt.
Proof.
  revert s2 s3. induction s1 as [|c1 s1 IH]; intros [|c2 s2] [|c3 s3]; simpl;
    try discriminate; try reflexivity.
  destruct (Ascii.compare c1 c2) eqn:E12; try discriminate;
    destruct (Ascii.compare c2 c3) eqn:E23; try discriminate; intros H1 H2.
  - apply Ascii.compare_eq_iff in E12, E23. subst.
    unfold Ascii.compare. rewrite N.compare_refl. now apply (IH s2).
  - apply Ascii.compare_eq_iff in E12. subst. now rewrite E23.
  - apply Ascii.compare_eq_iff in E23. subst. now rewrite E12.
  - now rewrite (ascii_compare_trans _ _ _ E12 E23).
Qed.

Lemma antes_trans (a b c : string) : antes a b -> antes b c -> antes a c.
Proof.
  unfold antes, String.ltb. intros H1 H2.
  destruct (String.compare a b) eqn:E1; try discriminate.
  destruct (String.compare b c) eqn:E2; try discriminate.
  now rewrite (string_lt_trans _ _ _ E1 E2).
Qed.

Lemma antes_irrefl (a : string) : ~ antes a a.
Proof.
  unfold antes, String.ltb. now rewrite string_compare_refl.
Qed.

(** Not [x <= y] and not equal leaves [y < x]. *)
Lemma leb_false_antes (x y : string) : String.leb x y = false -> antes y x.
Proof.
  unfold antes, String.leb, String.ltb. rewrite (String.compare_antisym x y).
  destruct (String.compare y x); simpl; try discriminate. reflexivity.
Qed.

Lemma leb_neq_antes (x y : string) :
  String.leb x y = true -> x <> y -> antes x y.
Proof.
  unfold antes, String.leb, String.ltb.
  destruct (String.compare x y) eqn:E; try discriminate; try reflexivity.
  intros _ H. apply String.compare_eq_iff in E. contradiction.
Qed.

Lemma antes_NoDup (l : list string) : StronglySorted antes l -> NoDup l.
Proof.
  induction 1 as [|x l _ IH Hx]; constructor; [|exact IH].
  intros Hin. rewrite Forall_forall in Hx.
  exact (antes_irrefl x (Hx x Hin)).
Qed.

Lemma insertar_In (x y : string) (l : list string) :
  In y (insertar x l) <-> y = x \/ In y l.
Proof.
  induction l as [|z l IH]; simpl; [intuition congruence|].
  destruct (String.leb x z); simpl; [intuition congruence|].
  rewrite IH. intuition congruence.
Qed.

Lemma sorted_In (y : string) (l : list string) : In y (sorted l) <-> In y l.
Proof.
  induction l as [|x l IH]; simpl; [reflexivity|].
  rewrite insertar_In, IH. intuition congruence.
Qed.

Lemma insertar_ordenado (x : string) (l : list string) :
  StronglySorted antes l -> ~ In x l -> StronglySorted antes (insertar x l).
Proof.
  induction 1 as [|z l Hs IH Hz]; simpl; intros Hn.
  - repeat constructor.
  - destruct (String.leb x z) eqn:E.
    + assert (Hxz : antes x z) by (apply leb_neq_antes; intuition congruence).
      constructor; [now constructor|]. constructor; [exact Hxz|].
      apply Forall_forall. intros w Hw. rewrite Forall_forall in Hz.
      apply (antes_trans _ z); [exact Hxz | now apply Hz].
    + constructor; [apply IH; intuition|].
      apply Forall_forall. intros w Hw. apply insertar_In in Hw.
      destruct Hw as [->|Hw]; [now apply leb_false_antes|].
      rewrite Forall_forall in Hz. now apply Hz.
Qed.

Lemma unique_NoDup (l : list string) : NoDup (unique l).
Proof.
  induction l as [|x l IH]; simpl; constructor.
  - rewrite filter_In, String.eqb_refl. simpl. intuition discriminate.
  - now apply NoDup_filter.
Qed.

Lemma sorted_ordenado (l : list string) :
  NoDup l -> StronglySorted antes (sorted l).
Proof.
  induction 1 as [|x l Hx _ IH]; simpl; [constructor|].
  apply insertar_ordenado; [exact IH|]. now rewrite sorted_In.
Qed.

(** X10. The options of the origin and of the destination selectbox (taking
    [col] to be the column): every label of the column is an option,
    every option is a label of the column, and the options are in
    strictly ascending order, so none is repeated. *)
Theorem opciones_ordenadas (col : Registro -> string) (archivo : list Registro) :
  let opciones :=
    sorted (unique (columna (fun f => col (datos f)) (df archivo))) in
  (forall x, In x opciones <-> exists reg, In reg archivo /\ col reg = x) /\
  StronglySorted antes opciones /\
  NoDup opciones.
Proof.
  intros opciones.
  assert (Hs : StronglySorted antes opciones)
    by apply sorted_ordenado, unique_NoDup.
  split; [|split; [exact Hs | now apply antes_NoDup]].
  intros x. unfold opciones, columna.
  rewrite sorted_In, unique_In, <- map_map, df_datos, in_map_iff.
  split; intros (reg & H1 & H2); exists reg; tauto.
Qed.

Lemma selectbox_None (opciones : list string) (i : nat) :
  selectbox opciones i = None <-> opciones = [].
Proof.
  unfold selectbox. split.
  - destruct (nth_error opciones i); [discriminate|].
    destruct opciones; [reflexivity | discriminate].
  - intros ->. now destruct i.
Qed.

Lemma selectbox_Some (opciones : list string) (i : nat) (s : string) :
  selectbox opciones i = Some s -> In s opciones.
Proof.
  unfold selectbox. destruct (nth_error opciones i) as [x|] eqn:E.
  - intros H. injection H as <-. eapply nth_error_In, E.
  - destruct opciones as [|x l]; simpl; [discriminate|].
    intros H. injection H as <-. now left.
Qed.

Lemma opciones_vacias (col : Registro -> string) (archivo : list Registro) :
  sorted (unique (columna (fun f => col (datos f)) (df archivo))) = [] <->
  archivo = [].
Proof.
  split.
  - intros H. destruct archivo as [|reg l]; [reflexivity|]. exfalso.
    assert (Hin : In (col reg)
              (sorted (unique (columna (fun f => col (datos f)) (df (reg :: l)))))).
    { unfold columna.
      rewrite sorted_In, unique_In, <- map_map, df_datos. now left. }
    rewrite H in Hin. exact Hin.
  - intros ->. reflexivity.
Qed.

(** X11. The selection comes from the table: a chosen origin is the origin of
    some record and a chosen destination the destination of some record
    (not necessarily the same one); nothing is chosen exactly when the
    file has no record, and then the page is halted at the first
    message. *)
Theorem seleccion_de_la_tabla (archivo : list Registro) (u : Usuario)
    (requests_get : Solicitud -> Respuesta) :
  (forall o, origen_de archivo u = Some o ->
             exists reg, In reg archivo /\ inicio reg = o) /\
  (forall dd, destino_de archivo u = Some dd ->
              exists reg, In reg archivo /\ fin reg = dd) /\
  (origen_de archivo u = None <-> archivo = []) /\
  (destino_de archivo u = None <-> archivo = []) /\
  (archivo = [] ->
   pagina archivo u requests_get
   = (encabezado archivo u
        ++ [error "No existen rutas entre este origen y destino."],
      Detenido)).
Proof.
  repeat split.
  - intros o H. apply selectbox_Some in H. unfold columna in H.
    rewrite sorted_In, unique_In, <- map_map, df_datos, in_map_iff in H.
    destruct H as (reg & H1 & H2). exists reg. tauto.
  - intros dd H. apply selectbox_Some in H. unfold columna in H.
    rewrite sorted_In, unique_In, <- map_map, df_datos, in_map_iff in H.
    destruct H as (reg & H1 & H2). exists reg. tauto.
  - intros H. apply selectbox_None in H. now apply (opciones_vacias inicio).
  - intros H. apply selectbox_None. now apply (opciones_vacias inicio).
  - intros H. apply selectbox_None in H. now apply (opciones_vacias fin).
  - intros H. apply selectbox_None. now apply (opciones_vacias fin).
  - intros ->. reflexivity.
Qed.

(** ** Index labels *)




(** ** The demand chart *)

Lemma total_acumular (k k' : string) (x : Q) (l : list (string * Q)) :
  (total k' (acumular k x l) == total k' l + (if k =? k' then x else 0))%Q.
Proof.
  induction l as [|[k0 y] l IH]; simpl.
  - unfold total. simpl. destruct (k =? k'); simpl; lra.
  - destruct (String.eqb_spec k0 k) as [->|Hk].
    + unfold total. simpl. destruct (k =? k'); simpl; lra.
    + destruct (String.leb k k0).
      * unfold total. simpl. destruct (k =? k'), (k0 =? k'); simpl; lra.
      * unfold total in *. simpl. destruct (k0 =? k'); simpl; lra.
Qed.

Lemma claves_acumular (k k' : string) (x : Q) (l : list (string * Q)) :
  In k' (map fst (acumular k x l)) <-> k' = k \/ In k' (map fst l).
Proof.
  induction l as [|[k0 y] l IH]; simpl; [intuition congruence|].
  destruct (String.eqb_spec k0 k) as [->|Hk]; simpl; [intuition congruence|].
  destruct (String.leb k k0); simpl; [intuition congruence|].
  rewrite IH. intuition congruence.
Qed.

Lemma acumular_ordenado (k : string) (x : Q) (l : list (string * Q)) :
  StronglySorted antes (map fst l) ->
  StronglySorted antes (map fst (acumular k x l)).
Proof.
  induction l as [|[k0 y] l IH]; simpl; intros H.
  - repeat constructor.
  - inversion H as [|? ? Hs Hz]; subst.
    destruct (String.eqb_spec k0 k) as [->|Hk]; simpl; [exact H|].
    destruct (String.leb k k0) eqn:E; simpl.
    + assert (Hkk : antes k k0) by (apply leb_neq_antes; congruence).
      constructor; [exact H|]. constructor; [exact Hkk|].
      apply Forall_forall. intros w Hw. rewrite Forall_forall in Hz.
      apply (antes_trans _ k0); [exact Hkk | now apply Hz].
    + constructor; [now apply IH|].
      apply Forall_forall. intros w Hw. apply claves_acumular in Hw.
      destruct Hw as [->|Hw]; [now apply leb_false_antes|].
      rewrite Forall_forall in Hz. now apply Hz.
Qed.

Lemma total_fold (k : string) (d : DataFrame) (acc : list (string * Q)) :
  (total k (fold_left paso_demanda d acc) == total k acc + suma_ruta k d)%Q.
Proof.
  revert acc. induction d as [|f d IH]; intros acc; simpl.
  - unfold suma_ruta. simpl. lra.
  - rewrite IH. unfold paso_demanda. rewrite total_acumular.
    unfold suma_ruta. simpl.
    destruct (ruta (datos f) =? k); simpl; lra.
Qed.

Lemma claves_fold (k : string) (d : DataFrame) (acc : list (string * Q)) :
  In k (map fst (fold_left paso_demanda d acc)) <->
  In k (map fst acc) \/ exists f, In f d /\ ruta (datos f) = k.
Proof.
  revert acc. induction d as [|f d IH]; intros acc; simpl.
  - split; [tauto|]. intros [H|(f & [] & _)]. exact H.
  - rewrite IH. unfold paso_demanda. rewrite claves_acumular.
    split.
    + intros [[->|H]|(g & Hg & Hk)].
      * right. exists f. tauto.
      * now left.
      * right. exists g. tauto.
    + intros [H|(g & [<-|Hg] & Hk)].
      * left. now right.
      * left. left. now symmetry.
      * right. exists g. tauto.
Qed.

Lemma ordenado_fold (d : DataFrame) (acc : list (string * Q)) :
  StronglySorted antes (map fst acc) ->
  StronglySorted antes (map fst (fold_left paso_demanda d acc)).
Proof.
  revert acc. induction d as [|f d IH]; intros acc H; simpl; [exact H|].
  apply IH. now apply acumular_ordenado.
Qed.

Lemma total_unico (k : string) (x : Q) (l : list (string * Q)) :
  NoDup (map fst l) -> In (k, x) l -> (total k l == x)%Q.
Proof.
  induction l as [|[k0 y] l IH]; simpl; intros Hn Hin; [contradiction|].
  inversion Hn as [|? ? Hk Hn']; subst. unfold total in *. simpl.
  destruct Hin as [E|Hin].
  - injection E as -> ->. rewrite String.eqb_refl. simpl.
    assert (Z : filter (fun kv => fst kv =? k) l = []).
    { clear - Hk. induction l as [|[k1 z] l IH]; simpl; [reflexivity|].
      simpl in Hk. destruct (String.eqb_spec k1 k) as [->|E].
      - exfalso. apply Hk. now left.
      - apply IH. tauto. }
    rewrite Z. simpl. lra.
  - destruct (String.eqb_spec k0 k) as [->|E]; simpl.
    + exfalso. apply Hk. apply in_map_iff. exists (k, x). tauto.
    + now apply IH.
Qed.

(** X14. The chart shows one bar per route name of the whole table, in
    strictly ascending order of the names, and the height of a bar is
    the total of the average passengers over the rows of that name. *)
Theorem demanda_por_ruta_totales (d : DataFrame) :
  StronglySorted antes (map fst (demanda_por_ruta d)) /\
  (forall k, In k (map fst (demanda_por_ruta d)) <->
             exists f, In f d /\ ruta (datos f) = k) /\
  (forall k x, In (k, x) (demanda_por_ruta d) -> (x == suma_ruta k d)%Q).
Proof.
  change (demanda_por_ruta d) with (fold_left paso_demanda d []).
  assert (Hs : StronglySorted antes (map fst (fold_left paso_demanda d [])))
    by (apply ordenado_fold; constructor).
  split; [exact Hs|]. split.
  - intros k. rewrite claves_fold. simpl. tauto.
  - intros k x Hin.
    rewrite <- (total_unico k x _ (antes_NoDup _ Hs) Hin), total_fold.
    unfold total. simpl. lra.
Qed.

Example demanda_por_ruta_ejemplo :
  demanda_por_ruta (df archivo_ejemplo)
  = [("R1", 50); ("R2", 100); ("R3", 80); ("R4", 60)]%Q.
Proof. reflexivity. Qed.

(** ** More on quantiles and colours *)

Lemma insertar_q_In (x y : Q) (l : list Q) :
  In y (insertar_q x l) <-> y = x \/ In y l.
Proof.
  induction l as [|z l IH]; simpl; [intuition congruence|].
  destruct (Qle_bool x z); simpl; [intuition congruence|].
  rewrite IH. intuition congruence.
Qed.

Lemma ordenar_In (y : Q) (l : list Q) : In y (ordenar l) <-> In y l.
Proof.
  induction l as [|x l IH]; simpl; [reflexivity|].
  rewrite insertar_q_In, IH. intuition congruence.
Qed.

Lemma ordenar_no_vacio (l : list Q) : l <> [] -> ordenar l <> [].
Proof.
  intros Hne E. apply (f_equal (@List.length Q)) in E.
  rewrite ordenar_length in E. destruct l; [contradiction | discriminate].
Qed.

(** The interpolated value lies between the first and the last of the
    sorted values. *)
Lemma interpolar_cotas (a : list Q) (a0 q : Q) :
  StronglySorted Qle a -> a <> [] -> (0 <= q)%Q -> (q <= 1)%Q ->
  (nth 0 a a0 <= interpolar a a0 q)%Q /\
  (interpolar a a0 q <= nth (List.length a - 1) a a0)%Q.
Proof.
  intros Hs Hne H0 H1. unfold interpolar.
  set (n := List.length a).
  assert (Hn : (1 <= n)%nat).
  { subst n. destruct a; [contradiction | simpl; lia]. }
  set (N := inject_Z (Z.of_nat n - 1)).
  assert (HN : (0 <= N)%Q).
  { subst N. change 0%Q with (inject_Z 0). rewrite <- Zle_Qle. lia. }
  set (p := (q * N)%Q).
  assert (Hp0 : (0 <= p)%Q) by (subst p; nra).
  assert (HpN : (p <= N)%Q) by (subst p; nra).
  assert (F0 : (0 <= Qfloor p)%Z).
  { change 0%Z with (Qfloor 0). now apply Qfloor_resp_le. }
  assert (FN : (Qfloor p <= Z.of_nat n - 1)%Z).
  { rewrite <- (Qfloor_Z (Z.of_nat n - 1)). now apply Qfloor_resp_le. }
  pose proof (Qfloor_le p) as G. pose proof (Qlt_floor p) as G'.
  rewrite inject_Z_plus in G'. change (inject_Z 1) with 1%Q in G'.
  set (fl := Qfloor p) in *. set (lo := Z.to_nat fl).
  assert (L : (lo < n)%nat) by (subst lo; lia).
  set (hi := Nat.min (lo + 1) (n - 1)).
  assert (X : (nth lo a a0 <= nth hi a a0)%Q)
    by (apply nth_creciente; [exact Hs | subst hi; lia | subst hi n; lia]).
  assert (A : (nth 0 a a0 <= nth lo a a0)%Q)
    by (apply nth_creciente; [exact Hs | lia | exact L]).
  assert (B : (nth hi a a0 <= nth (n - 1) a a0)%Q)
    by (apply nth_creciente; [exact Hs | subst hi; lia | subst n; lia]).
  set (x := nth lo a a0) in *. set (y := nth hi a a0) in *.
  split; nra.
Qed.

(** For [q] between 0 and 1 the quantile of a non-empty column exists
    and lies within the column: it is not below any lower bound of the
    values nor above any upper bound. *)
Lemma quantile_entre_extremos (valores : list Q) (q : Q) :
  valores <> [] -> (0 <= q)%Q -> (q <= 1)%Q ->
  exists x,
    quantile valores q = Some x /\
    (forall m, (forall y, In y valores -> (m <= y)%Q) -> (m <= x)%Q) /\
    (forall M, (forall y, In y valores -> (y <= M)%Q) -> (x <= M)%Q).
Proof.
  intros Hne H0 H1.
  destruct (quantile_interpolar valores Hne) as [a0 E].
  exists (interpolar (ordenar valores) a0 q). split; [apply E|].
  pose proof (ordenar_no_vacio valores Hne) as Hne'.
  destruct (interpolar_cotas (ordenar valores) a0 q
              (ordenar_Sorted valores) Hne' H0 H1) as [Hlo Hhi].
  assert (Hlen : (0 < List.length (ordenar valores))%nat).
  { destruct (ordenar valores); [contradiction | simpl; lia]. }
  split.
  - intros m Hm. eapply Qle_trans; [|exact Hlo].
    apply Hm, ordenar_In, nth_In. exact Hlen.
  - intros M HM. eapply Qle_trans; [exact Hhi|].
    apply HM, ordenar_In, nth_In. lia.
Qed.

(** A higher quantile of the same column is not a smaller value. *)
Lemma quantile_creciente (valores : list Q) (q1 q2 : Q) :
  valores <> [] -> (0 <= q1)%Q -> (q1 <= q2)%Q -> (q2 <= 1)%Q ->
  exists x1 x2,
    quantile valores q1 = Some x1 /\
    quantile valores q2 = Some x2 /\
    (x1 <= x2)%Q.
Proof.
  intros Hne H0 H12 H1.
  destruct (quantile_interpolar valores Hne) as [a0 E].
  exists (interpolar (ordenar valores) a0 q1),
         (interpolar (ordenar valores) a0 q2).
  split; [apply E|]. split; [apply E|].
  apply interpolar_creciente; try assumption.
  - apply ordenar_Sorted.
  - now apply ordenar_no_vacio.
Qed.

Lemma mayor_creciente (v1 v2 : Q) (c : option Q) :
  (v1 <= v2)%Q -> mayor v1 c = true -> mayor v2 c = true.
Proof.
  destruct c as [x|]; [|discriminate].
  rewrite !mayor_Some. lra.
Qed.

(** X15. The colour follows the efficiency: a value that is not smaller
    never gets a lower colour, on any table. *)
Theorem eficiencia_color_creciente (d : DataFrame) (v1 v2 : Q) :
  (v1 <= v2)%Q ->
  (nivel (eficiencia_color d v1) <= nivel (eficiencia_color d v2))%nat.
Proof.
  intros H. unfold eficiencia_color.
  destruct (mayor v1 (quantile (columna eficiencia d) 0.66)) eqn:A1.
  - rewrite (mayor_creciente v1 v2 _ H A1). reflexivity.
  - destruct (mayor v1 (quantile (columna eficiencia d) 0.33)) eqn:B1.
    + rewrite (mayor_creciente v1 v2 _ H B1).
      destruct (mayor v2 (quantile (columna eficiencia d) 0.66));
        unfold nivel; simpl; lia.
    + unfold nivel at 1. simpl. lia.
Qed.

(** X16. A row whose efficiency no row of the table undercuts is drawn red
    on the overview map; so a non-empty table always has a red line,
    and a table whose rows all have the same efficiency is all red. *)
Theorem menos_eficiente_en_rojo (d : DataFrame) (f : Fila) :
  In f d ->
  (forall g, In g d -> (eficiencia f <= eficiencia g)%Q) ->
  eficiencia_color d (eficiencia f) = "red" /\
  In {| locations := [(lat_inicio (datos f), lon_inicio (datos f));
                      (lat_fin (datos f), lon_fin (datos f))];
        color := "red";
        weight := 4;
        tooltip := ruta (datos f) |} (lineas (minimapa d)).
Proof.
  intros Hin Hmin.
  assert (Hc : columna eficiencia d <> []).
  { destruct d; [contradiction | discriminate]. }
  assert (Hlow : forall y, In y (columna eficiencia d) ->
                           (eficiencia f <= y)%Q).
  { intros y Hy. apply in_map_iff in Hy. destruct Hy as (g & <- & Hg).
    now apply Hmin. }
  assert (Hq : forall q, (0 <= q)%Q -> (q <= 1)%Q ->
             mayor (eficiencia f) (quantile (columna eficiencia d) q) = false).
  { intros q H0 H1.
    destruct (quantile_interpolar _ Hc) as [a0 E]. rewrite E.
    apply mayor_Some_false.
    pose proof (ordenar_no_vacio _ Hc) as Hne'.
    destruct (interpolar_cotas (ordenar (columna eficiencia d)) a0 q
                (ordenar_Sorted _) Hne' H0 H1) as [Hlo _].
    eapply Qle_trans; [|exact Hlo].
    apply Hlow, ordenar_In, nth_In.
    destruct (ordenar (columna eficiencia d)); [contradiction | simpl; lia]. }
  assert (Hred : eficiencia_color d (eficiencia f) = "red").
  { unfold eficiencia_color. rewrite !Hq by lra. reflexivity. }
  split; [exact Hred|].
  unfold minimapa, construir_gdf_rutas. cbn [lineas].
  rewrite map_map. apply in_map_iff. exists f. split; [|exact Hin].
  unfold linea. cbn [fila_de]. now rewrite Hred.
Qed.

(** ** The pace of the animation *)

Lemma traza_pares (ruta_real : list Punto) (l : list (nat * Punto)) :
  let t := flat_map (traza_de ruta_real) l in
  List.length t = (2 * List.length l)%nat /\
  (forall i ip, nth_error l i = Some ip ->
     nth_error t (2 * i)
     = Some (pydeck_chart (deck_de ruta_real (fst ip) (snd ip))) /\
     nth_error t (2 * i + 1) = Some (sleep 0.12)) /\
  (espera t == 0.12 * inject_Z (Z.of_nat (List.length l)))%Q.
Proof.
  induction l as [|ip0 l IH]; cbn zeta in *.
  - split; [reflexivity|]. split; [|reflexivity].
    intros [|i] ip H; discriminate.
  - destruct IH as (IH1 & IH2 & IH3). split; [|split].
    + simpl. rewrite IH1. lia.
    + intros [|i] ip H; simpl in H.
      * injection H as <-. split; reflexivity.
      * replace (2 * S i)%nat with (S (S (2 * i))) by lia.
        replace (S (S (2 * i)) + 1)%nat with (S (S (2 * i + 1))) by lia.
        simpl. now apply IH2.
    + cbn [flat_map traza_de app espera List.length].
      rewrite IH3, Nat2Z.inj_succ, <- Z.add_1_r, inject_Z_plus.
      change (inject_Z 1) with 1%Q. ring.
Qed.

(** X17. The loop alternates a frame and a pause of 0.12 seconds, frame i
    coming at position 2i of what it renders, and it sleeps 0.12
    seconds times the number of points in all. *)
Theorem simulacion_ritmo (ruta_real : list Punto) :
  let t := fst (simulacion ruta_real) in
  List.length t = (2 * List.length ruta_real)%nat /\
  (forall i p, nth_error ruta_real i = Some p ->
     nth_error t (2 * i) = Some (pydeck_chart (deck_de ruta_real i p)) /\
     nth_error t (2 * i + 1) = Some (sleep 0.12)) /\
  (espera t == 0.12 * inject_Z (Z.of_nat (List.length ruta_real)))%Q.
Proof.
  cbn zeta. rewrite simulacion_traza. cbn [fst].
  destruct (traza_pares ruta_real
              (combine (seq 0 (List.length ruta_real)) ruta_real))
    as (H1 & H2 & H3).
  rewrite length_combine, length_seq, Nat.min_id in H1, H3.
  split; [exact H1|]. split; [|exact H3].
  intros i p Hi.
  exact (H2 i (i, p) (nth_error_combine_seq ruta_real 0 i p Hi)).
Qed.

(** ** The icon column *)

Lemma find_dict_entero (valor : list (string * json)) (n : nat) :
  find (fun kv => rotulo_eqb (fst kv) (RInt n)) (serie_de_dict valor) = None.
Proof.
  induction valor as [|kv valor IH]; simpl; [reflexivity | exact IH].
Qed.

Lemma assign_icon_NaN (d : list (nat * Punto)) (valor : list (string * json)) :
  assign_icon d valor = map (fun ip => (snd ip, None)) d.
Proof.
  unfold assign_icon, reindex. rewrite !map_map.
  induction d as [|ip d IH]; simpl; [reflexivity|].
  now rewrite find_dict_entero, IH.
Qed.

(** X18. Assigning a dict as the icon column aligns the dict's string
    keys on the integer labels of the rows, so no row finds a value:
    whatever the dict, the column is NaN in every row. In every frame
    of the animation the icon layer therefore holds its one point with
    no icon. *)
Theorem icono_ausente :
  (forall (d : list (nat * Punto)) (valor : list (string * json)),
      map fst (assign_icon d valor) = map snd d /\
      Forall (fun c => c = None) (map snd (assign_icon d valor))) /\
  (forall ruta_real deck,
      In deck (cuadros (fst (simulacion ruta_real))) ->
      exists p, marcador deck = [p] /\ iconos deck = [None]).
Proof.
  split.
  - intros d valor. rewrite assign_icon_NaN, !map_map. split.
    + reflexivity.
    + apply Forall_forall. intros c Hc. apply in_map_iff in Hc.
      destruct Hc as (ip & <- & _). reflexivity.
  - intros ruta_real deck Hin.
    rewrite simulacion_traza in Hin. cbn [fst] in Hin.
    rewrite cuadros_traza in Hin. apply in_map_iff in Hin.
    destruct Hin as ([i p] & <- & _). exists p. split; reflexivity.
Qed.

(** ** Points taken as they come *)

Lemma py_map_entradas (ls : list (list json)) :
  Forall (fun l => (2 <= List.length l)%nat) ls ->
  py_map punto_de (map JArr ls) = Valor (map punto_de_entradas ls).
Proof.
  induction 1 as [|l ls Hl _ IH]; simpl; [reflexivity|].
  rewrite IH. destruct l as [|x [|y l]]; simpl in Hl; try lia.
  reflexivity.
Qed.

(** X5. The fetcher does not look into the points: when each point is a
    list of at least two entries, whatever they are, the rows carry the
    second entry as lat and the first as lon, further entries are
    dropped, and the duration may be a number or a boolean. *)
Theorem obtener_ruta_osrm_sin_validar
    (requests_get : Solicitud -> Respuesta) (lat1 lon1 lat2 lon2 : Q)
    (data segundos : json) (m : Q) (ls : list (list json)) :
  status_code (requests_get (url lat1 lon1 lat2 lon2)) = 200%Z ->
  r_json (requests_get (url lat1 lon1 lat2 lon2)) = Valor data ->
  campos_presentes data (JArr (map JArr ls)) segundos ->
  truediv segundos 60 = Valor m ->
  Forall (fun l => (2 <= List.length l)%nat) ls ->
  obtener_ruta_osrm requests_get lat1 lon1 lat2 lon2
  = Valor (map punto_de_entradas ls, Some m).
Proof.
  intros Hs Hj Hc Hm Hl. unfold obtener_ruta_osrm.
  rewrite Hs. simpl.
  rewrite (extraer_campos _ _ _ _ Hj Hc), Hm. simpl.
  now rewrite (py_map_entradas ls Hl).
Qed.

(** ** Which row can be chosen *)

Lemma fila_primera_del_nombre (od : DataFrame) (u : Usuario)
    (t : list evento) (f : Fila) :
  fila od u = (t, Sigue f) ->
  find (fun g => ruta (datos g) =? ruta (datos f)) od = Some f.
Proof.
  intros H. destruct od as [|g [|h od]].
  - discriminate H.
  - injection H as _ <-. simpl. now rewrite String.eqb_refl.
  - destruct (fila_varias (g :: h :: od) u) as (s & f0 & _ & Hf & Hfind).
    { simpl. lia. }
    rewrite Hf in H. injection H as _ <-.
    pose proof (find_some _ _ Hfind) as [_ Hs].
    apply String.eqb_eq in Hs. now rewrite Hs.
Qed.

(** X13. The row used is always the first row of the frame with its route
    name. With nothing picked, or a pick that is not on the list, it is
    the first row of the frame. Every route name of the frame can be
    picked, and a row that repeats the name of an earlier row cannot be
    reached. *)
Theorem fila_alcance (od : DataFrame) :
  (forall u t f, fila od u = (t, Sigue f) ->
     find (fun g => ruta (datos g) =? ruta (datos f)) od = Some f) /\
  (forall u g resto, od = g :: resto ->
     elige_ruta u = 0%nat \/
     (List.length (unique (columna (fun f => ruta (datos f)) od))
      <= elige_ruta u)%nat ->
     snd (fila od u) = Sigue g) /\
  (forall nombre, In nombre (columna (fun f => ruta (datos f)) od) ->
     exists i, forall u, elige_ruta u = i ->
       exists f, snd (fila od u) = Sigue f /\ ruta (datos f) = nombre).
Proof.
  split; [exact (fila_primera_del_nombre od)|]. split.
  - intros u g resto -> Hi. destruct resto as [|h resto]; [reflexivity|].
    destruct (fila_varias (g :: h :: resto) u) as (s & f & Hs & Hf & Hfind).
    { simpl. lia. }
    rewrite Hf. cbn [snd]. f_equal.
    assert (s = ruta (datos g)) as ->.
    { unfold selectbox in Hs. destruct Hi as [Hi | Hi].
      - rewrite Hi in Hs. simpl in Hs. now injection Hs as <-.
      - destruct (nth_error _ (elige_ruta u)) as [s0|] eqn:E.
        + assert (Hn : nth_error
                    (unique (columna (fun f => ruta (datos f))
                               (g :: h :: resto)))
                    (elige_ruta u) <> None) by (rewrite E; discriminate).
          apply nth_error_Some in Hn. lia.
        + simpl in Hs. now injection Hs as <-. }
    simpl in Hfind. rewrite String.eqb_refl in Hfind. now injection Hfind as <-.
  - intros nombre Hin. destruct od as [|g [|h od]].
    + contradiction.
    + exists 0%nat. intros u _. exists g. split; [reflexivity|].
      simpl in Hin. tauto.
    + apply unique_In in Hin. apply In_nth_error in Hin.
      destruct Hin as [i Hi]. exists i. intros u Hu.
      destruct (fila_varias (g :: h :: od) u) as (s & f & Hs & Hf & Hfind).
      { simpl. lia. }
      exists f. rewrite Hf. split; [reflexivity|].
      unfold selectbox in Hs. rewrite Hu, Hi in Hs. injection Hs as <-.
      apply find_some in Hfind. destruct Hfind as [_ E].
      now apply String.eqb_eq in E.
Qed.

(** ** The properties above on the examples *)

Lemma obtener_ruta_osrm_retorno_witness :
  (ruta_ejemplo = [] /\ Some (600 / 60)%Q = None) \/
  (exists coords cs minutos,
      status_code respuesta_ejemplo = 200%Z /\
      extraer respuesta_ejemplo = Valor (coords, minutos) /\
      iter coords = Valor cs /\
      List.length ruta_ejemplo = List.length cs /\
      Some (600 / 60)%Q = Some minutos).
Proof.
  apply (obtener_ruta_osrm_retorno (fun _ => respuesta_ejemplo)
           9.93 (-84.08) 10.01 (-84.21) ruta_ejemplo (Some (600 / 60)%Q)).
  reflexivity.
Defined.

Lemma obtener_ruta_osrm_red_lanza_witness :
  (red_caida (url 9.93 (-84.08) 10.01 (-84.21)) = Lanza RequestException \/
   (exists r,
       red_caida (url 9.93 (-84.08) 10.01 (-84.21)) = Valor r /\
       status_code r = 200%Z /\
       (exists coords minutos, extraer r = Valor (coords, minutos)) /\
       (RequestException = TypeError \/ RequestException = IndexError \/
        RequestException = KeyError))) /\
  (red_punto_corto (url 9.93 (-84.08) 10.01 (-84.21)) = Lanza IndexError \/
   (exists r,
       red_punto_corto (url 9.93 (-84.08) 10.01 (-84.21)) = Valor r /\
       status_code r = 200%Z /\
       (exists coords minutos, extraer r = Valor (coords, minutos)) /\
       (IndexError = TypeError \/ IndexError = IndexError \/
        IndexError = KeyError))).
Proof.
  split.
  - apply (obtener_ruta_osrm_red_lanza red_caida
             9.93 (-84.08) 10.01 (-84.21) RequestException).
    reflexivity.
  - apply (obtener_ruta_osrm_red_lanza red_punto_corto
             9.93 (-84.08) 10.01 (-84.21) IndexError).
    reflexivity.
Defined.

Lemma obtener_ruta_osrm_punto_incompleto_witness :
  obtener_ruta_osrm (fun _ => respuesta_punto_corto) 9.93 (-84.08) 10.01 (-84.21)
  = Lanza IndexError.
Proof.
  apply (obtener_ruta_osrm_punto_incompleto (fun _ => respuesta_punto_corto)
           9.93 (-84.08) 10.01 (-84.21)
           cuerpo_punto_corto (JNum 600) [] [JNum 10] []).
  - reflexivity.
  - reflexivity.
  - unfold campos_presentes. do 3 eexists. repeat split; reflexivity.
  - reflexivity.
  - simpl. lia.
Defined.

Lemma obtener_ruta_osrm_duracion_no_numerica_witness :
  obtener_ruta_osrm (fun _ => respuesta_duracion_texto)
    9.93 (-84.08) 10.01 (-84.21)
  = Valor ([], None).
Proof.
  apply (obtener_ruta_osrm_duracion_no_numerica
           (fun _ => respuesta_duracion_texto) 9.93 (-84.08) 10.01 (-84.21)
           cuerpo_duracion_texto
           (JArr [JArr [JNum 10; JNum 20]; JArr [JNum 11; JNum 21]])
           (JStr "600")).
  - reflexivity.
  - reflexivity.
  - unfold campos_presentes. do 3 eexists. repeat split; reflexivity.
  - reflexivity.
Defined.

Lemma obtener_ruta_osrm_sin_validar_witness :
  obtener_ruta_osrm (fun _ => respuesta_con_altura) 9.93 (-84.08) 10.01 (-84.21)
  = Valor ([ {| lat := JNum 20; lon := JNum 10 |};
             {| lat := JNull; lon := JStr "a" |} ], Some (1 / 60)%Q).
Proof.
  apply (obtener_ruta_osrm_sin_validar (fun _ => respuesta_con_altura)
           9.93 (-84.08) 10.01 (-84.21)
           cuerpo_con_altura (JBool true) (1 / 60)%Q puntos_con_altura).
  - reflexivity.
  - reflexivity.
  - unfold campos_presentes. do 3 eexists. repeat split; reflexivity.
  - reflexivity.
  - repeat constructor.
Defined.

Lemma pagina_completa_witness :
  exists m ind,
    Some (600 / 60)%Q = Some m /\
    indicadores od_A_B (Some m) = (ind, Sigue tt) /\
    pagina archivo_ejemplo usuario_A_B (fun _ => respuesta_ejemplo)
    = (encabezado archivo_ejemplo usuario_A_B ++ traza_fila_A_B ++ ind
         ++ traza_tabla_mapas (df archivo_ejemplo) od_A_B
              (origen_de archivo_ejemplo usuario_A_B)
              (destino_de archivo_ejemplo usuario_A_B)
         ++ flat_map (traza_de ruta_ejemplo)
              (combine (seq 0 (List.length ruta_ejemplo)) ruta_ejemplo),
       Sigue tt) /\
    List.length (cuadros (fst (pagina archivo_ejemplo usuario_A_B
                                 (fun _ => respuesta_ejemplo))))
    = List.length ruta_ejemplo /\
    Forall (fun e => es_error e = false)
      (fst (pagina archivo_ejemplo usuario_A_B (fun _ => respuesta_ejemplo))).
Proof.
  apply (pagina_completa archivo_ejemplo usuario_A_B
           (fun _ => respuesta_ejemplo) traza_fila_A_B fila_R2
           ruta_ejemplo (Some (600 / 60)%Q)).
  - intros reg [<-|[<-|[<-|[<-|[]]]]] H; discriminate H.
  - reflexivity.
  - reflexivity.
  - discriminate.
Defined.


(** With the network down the page ends at the fetch, after the
    heading and the row choice. *)
Example pagina_red_caida :
  pagina_red archivo_ejemplo usuario_A_B red_caida
  = (encabezado archivo_ejemplo usuario_A_B ++ traza_fila_A_B,
     Excepcion RequestException).
Proof. reflexivity. Qed.

Lemma pagina_excepcion_witness :
  pagina archivo_ejemplo usuario_A_B (fun _ => respuesta_punto_corto)
  = (encabezado archivo_ejemplo usuario_A_B ++ traza_fila_A_B,
     Excepcion IndexError) /\
  Forall (fun ev => es_marco ev = true)
    (fst (pagina archivo_ejemplo usuario_A_B (fun _ => respuesta_punto_corto))).
Proof.
  apply (pagina_excepcion archivo_ejemplo usuario_A_B
           (fun _ => respuesta_punto_corto) traza_fila_A_B fila_R2 IndexError).
  - reflexivity.
  - reflexivity.
Defined.

Lemma pagina_una_solicitud_witness :
  pagina archivo_ejemplo usuario_A_B (fun _ => respuesta_ejemplo)
  = pagina archivo_ejemplo usuario_A_B servicio_por_endpoint.
Proof.
  apply (pagina_una_solicitud archivo_ejemplo usuario_A_B
           (fun _ => respuesta_ejemplo) servicio_por_endpoint).
  intros f _ _. reflexivity.
Defined.

Lemma quantile_entre_extremos_witness :
  exists x,
    quantile [3; 1; 2; 4]%Q 0.5 = Some x /\
    (forall m, (forall y, In y [3; 1; 2; 4]%Q -> (m <= y)%Q) -> (m <= x)%Q) /\
    (forall M, (forall y, In y [3; 1; 2; 4]%Q -> (y <= M)%Q) -> (x <= M)%Q).
Proof.
  apply (quantile_entre_extremos [3; 1; 2; 4]%Q 0.5).
  - discriminate.
  - unfold Qle. simpl. lia.
  - unfold Qle. simpl. lia.
Defined.

Lemma quantile_creciente_witness :
  exists x1 x2,
    quantile [3; 1; 2; 4]%Q 0.33 = Some x1 /\
    quantile [3; 1; 2; 4]%Q 0.66 = Some x2 /\
    (x1 <= x2)%Q.
Proof.
  apply (quantile_creciente [3; 1; 2; 4]%Q 0.33 0.66).
  - discriminate.
  - unfold Qle. simpl. lia.
  - unfold Qle. simpl. lia.
  - unfold Qle. simpl. lia.
Defined.

Lemma eficiencia_color_creciente_witness :
  (nivel (eficiencia_color (df archivo_ejemplo) 2)
   <= nivel (eficiencia_color (df archivo_ejemplo) 4))%nat.
Proof.
  apply (eficiencia_color_creciente (df archivo_ejemplo) 2%Q 4%Q).
  unfold Qle. simpl. lia.
Defined.

Lemma menos_eficiente_en_rojo_witness :
  eficiencia_color (df archivo_ejemplo) (eficiencia fila_R4) = "red" /\
  In {| locations := [(10.01, -84.21); (9.86, -83.91)]%Q;
        color := "red";
        weight := 4;
        tooltip := "R4" |} (lineas (minimapa (df archivo_ejemplo))).
Proof.
  apply (menos_eficiente_en_rojo (df archivo_ejemplo) fila_R4).
  - simpl. tauto.
  - intros g [<-|[<-|[<-|[<-|[]]]]]; unfold Qle; simpl; lia.
Defined.
